(** * modmesh: the SimpleArrayPlex Python wrapper and the StaticMesh tables

    A shallow embedding of
    - [cpp/modmesh/buffer/pymod/wrap_SimpleArrayPlex.cpp]: [make_shape],
      [init_array_plex_with_value], [get_typed_array];
    - [include/modmesh/mesh.hpp]: [CellType], the cell type catalogue and
      the constructor of [StaticMeshBase].

    Buffers live in an explicit store, C++ exceptions are an outcome of
    every call, and the Python objects handed to the wrapper are a small
    inductive type together with the pybind11 checks and casts the wrapper
    calls on them. *)

From Stdlib Require Import ZArith String List Lia.
From Stdlib Require Import PrimFloat SpecFloat FloatOps.
From stdpp Require Import gmap strings list fin_maps.

Local Open Scope Z_scope.

(** ** Exceptions *)

(** The wrapper throws [std::runtime_error] with a message; a failed
    [object::cast<T>()] throws [pybind11::cast_error]. *)
Inductive exception : Type :=
| runtime_error (what : string)
| cast_error.

Inductive outcome (A : Type) : Type :=
| Ret (a : A)
| Throw (e : exception).
Arguments Ret {A} a.
Arguments Throw {A} e.

#[global] Instance exception_eq_dec : EqDecision exception.
Proof. solve_decision. Defined.

(** The error kinds of the specification, read off the thrown message. *)
Definition is_TypeMismatchError (e : exception) : bool :=
  match e with
  | runtime_error what => String.prefix "Data type mismatch" what
  | cast_error => false
  end.

Definition is_UnsupportedDatatypeError (e : exception) : bool :=
  match e with
  | runtime_error what => String.eqb what "Unsupported datatype"
  | cast_error => false
  end.

(** ** Fixed-width C++ integer types *)

Module CInt.

Inductive type : Type :=
| int8_t | int16_t | int32_t | int64_t
| uint8_t | uint16_t | uint32_t | uint64_t.

Definition bits (T : type) : Z :=
  match T with
  | int8_t | uint8_t => 8
  | int16_t | uint16_t => 16
  | int32_t | uint32_t => 32
  | int64_t | uint64_t => 64
  end.

Definition is_signed (T : type) : bool :=
  match T with
  | int8_t | int16_t | int32_t | int64_t => true
  | _ => false
  end.

Definition min_value (T : type) : Z :=
  if is_signed T then - 2 ^ (bits T - 1) else 0.

Definition max_value (T : type) : Z :=
  if is_signed T then 2 ^ (bits T - 1) - 1 else 2 ^ bits T - 1.

Definition in_range (T : type) (z : Z) : bool :=
  (min_value T <=? z) && (z <=? max_value T).

(** Integral conversion to [T] (an implicit conversion or a
    [static_cast]): the value modulo [2 ^ bits T], read as signed when
    [T] is. *)
Definition convert (T : type) (z : Z) : Z :=
  let m := z mod 2 ^ bits T in
  if is_signed T && (2 ^ (bits T - 1) <=? m) then m - 2 ^ bits T else m.

End CInt.

(** [size_t] on the LP64 targets of the project. *)
Definition size_t : CInt.type := CInt.uint64_t.

(** ** Python objects and the pybind11 calls of the wrapper *)

Module Py.

(** The Python values a caller can pass as [shape] or [value]. *)
#[warnings="-register-all"]
Inductive object : Type :=
| None_
| Bool (b : bool)
| Int (z : Z)
| Float (f : float)
| Str (s : string)
| List (items : list object)
| Tuple (items : list object).

(** [pybind11::isinstance<pybind11::bool_>]: [PyBool_Check]. *)
Definition isinstance_bool_ (o : object) : bool :=
  match o with
  | Bool _ => true
  | _ => false
  end.

(** [pybind11::isinstance<pybind11::int_>]: [PyLong_Check], which holds
    of every instance of [int] and of its subclasses; [bool] is one. *)
Definition isinstance_int_ (o : object) : bool :=
  match o with
  | Int _ | Bool _ => true
  | _ => false
  end.

(** [pybind11::isinstance<pybind11::float_>]: [PyFloat_Check]. *)
Definition isinstance_float_ (o : object) : bool :=
  match o with
  | Float _ => true
  | _ => false
  end.

(** The integer a Python object denotes for [PyLong_AsLong] and its
    unsigned variants: an [int], or a [bool] as 0 or 1. *)
Definition as_long (o : object) : option Z :=
  match o with
  | Int z => Some z
  | Bool b => Some (if b then 1 else 0)
  | _ => None
  end.

(** [o.cast<T>()] for an integral [T]. pybind11's arithmetic caster
    refuses a [float], reads the integer with the C API and then checks
    that it fits [T] ("integers should match exactly"): a value outside
    the range of [T] is a [cast_error], it is not truncated. *)
Definition cast_integral (T : CInt.type) (o : object) : outcome Z :=
  match as_long o with
  | Some z => if CInt.in_range T z then Ret z else Throw cast_error
  | None => Throw cast_error
  end.

(** [o.cast<bool>()]: [True] and [False], and (the cast converts) [None]
    and the objects with a [__bool__] slot. *)
Definition cast_bool (o : object) : outcome bool :=
  match o with
  | Bool b => Ret b
  | None_ => Ret false
  | Int z => Ret (negb (z =? 0))
  | Float f => Ret (negb (PrimFloat.eqb f 0%float))
  | Str _ | List _ | Tuple _ => Throw cast_error
  end.

(** The double nearest to an integer (ties to even), as
    [PyLong_AsDouble] computes it; [None] when it overflows. *)
Definition long_as_double (z : Z) : option float :=
  match binary_normalize 53 1024 z 0 false with
  | S754_infinity _ => None
  | x => Some (SF2Prim x)
  end.

(** [o.cast<double>()]: [PyFloat_AsDouble]. *)
Definition cast_double (o : object) : outcome float :=
  match o with
  | Float f => Ret f
  | Int _ | Bool _ =>
      match as_long o with
      | Some z =>
          match long_as_double z with
          | Some f => Ret f
          | None => Throw cast_error
          end
      | None => Throw cast_error
      end
  | None_ | Str _ | List _ | Tuple _ => Throw cast_error
  end.

(** Narrowing of a double to binary32 and back: what an array of
    [float] stores for it. *)
Definition double_to_float (d : float) : float :=
  match Prim2SF d with
  | S754_finite s m e => SF2Prim (binary_round 24 128 s m e)
  | _ => d
  end.

(** [o.cast<float>()]: the double, narrowed. *)
Definition cast_float (o : object) : outcome float :=
  match cast_double o with
  | Ret d => Ret (double_to_float d)
  | Throw e => Throw e
  end.

(** [o.cast<std::vector<size_t>>()]: a sequence that is not a string,
    each item cast to [size_t]. *)
Fixpoint cast_items (items : list object) : outcome (list Z) :=
  match items with
  | [] => Ret []
  | o :: rest =>
      match cast_integral size_t o with
      | Ret n =>
          match cast_items rest with
          | Ret ns => Ret (n :: ns)
          | Throw e => Throw e
          end
      | Throw e => Throw e
      end
  end.

Definition cast_vector_size_t (o : object) : outcome (list Z) :=
  match o with
  | List items | Tuple items => cast_items items
  | _ => Throw cast_error
  end.

End Py.

(** ** [make_shape] *)

Definition shape_type : Type := list Z.

(** [try { shape.push_back(shape_in.cast<size_t>()); }
     catch (const pybind11::cast_error &) { shape = shape_in.cast<std::vector<size_t>>(); }] *)
Definition make_shape (shape_in : Py.object) : outcome shape_type :=
  match Py.cast_integral size_t shape_in with
  | Ret n => Ret [n]
  | Throw cast_error => Py.cast_vector_size_t shape_in
  | Throw e => Throw e
  end.

(** ** Element types *)

Module DataType.

(** Modelled from the spec: the [DataType] enumeration is declared with
    [SimpleArray], outside these sources. It is the fixed enumeration
    Bool, Int8/16/32/64, Uint8/16/32/64, Float32, Float64; [Undefined]
    stands for a tag outside it, which only the [default] branches of
    the wrapper see. *)
Inductive t : Type :=
| Undefined
| Bool
| Int8 | Int16 | Int32 | Int64
| Uint8 | Uint16 | Uint32 | Uint64
| Float32 | Float64.

#[global] Instance eq_dec : EqDecision t.
Proof. solve_decision. Defined.

Definition supported (D : t) : bool :=
  match D with
  | Undefined => false
  | _ => true
  end.

Inductive family : Type := BoolFamily | IntegerFamily | FloatFamily.

Definition family_of (D : t) : option family :=
  match D with
  | Undefined => None
  | Bool => Some BoolFamily
  | Int8 | Int16 | Int32 | Int64
  | Uint8 | Uint16 | Uint32 | Uint64 => Some IntegerFamily
  | Float32 | Float64 => Some FloatFamily
  end.

(** The element type [T] of [SimpleArray<T>] for the integer tags:
    [SimpleArrayInt8] is [SimpleArray<int8_t>], and so on. *)
Definition ctype (D : t) : option CInt.type :=
  match D with
  | Int8 => Some CInt.int8_t
  | Int16 => Some CInt.int16_t
  | Int32 => Some CInt.int32_t
  | Int64 => Some CInt.int64_t
  | Uint8 => Some CInt.uint8_t
  | Uint16 => Some CInt.uint16_t
  | Uint32 => Some CInt.uint32_t
  | Uint64 => Some CInt.uint64_t
  | _ => None
  end.

(** Modelled from the spec: the dtype names accepted by the
    constructors, [bool, int8, int16, int32, int64, uint8, uint16,
    uint32, uint64, float32, float64].  The tag outside the enumeration
    has no accepted name: [from_string] never returns it. *)
Definition name (D : t) : string :=
  match D with
  | Undefined => "undefined"
  | Bool => "bool"
  | Int8 => "int8"
  | Int16 => "int16"
  | Int32 => "int32"
  | Int64 => "int64"
  | Uint8 => "uint8"
  | Uint16 => "uint16"
  | Uint32 => "uint32"
  | Uint64 => "uint64"
  | Float32 => "float32"
  | Float64 => "float64"
  end.

Definition all : list t :=
  [Bool; Int8; Int16; Int32; Int64; Uint8; Uint16; Uint32; Uint64;
   Float32; Float64].

(** Modelled from the spec: parsing of a dtype name against the fixed
    enumeration; no match is the "unsupported datatype" error. *)
Definition from_string (s : string) : option t :=
  List.find (fun D => String.eqb (name D) s) all.

End DataType.

(** ** The store, and computations that may throw *)

(** What one element of a buffer holds. A freshly constructed array is
    not initialised: its elements are [Indeterminate]. *)
Inductive scalar : Type :=
| Indeterminate
| Boolean (b : bool)
| Integer (z : Z)
| Real (f : float).

(** The store maps the address of every live buffer to its elements. *)
Abbreviation heap := (gmap positive (list scalar)).

Definition M (A : Type) : Type := heap -> outcome A * heap.

#[global] Instance M_ret : MRet M := fun A a h => (Ret a, h).

#[global] Instance M_bind : MBind M := fun A B k m h =>
  match m h with
  | (Ret a, h') => k a h'
  | (Throw e, h') => (Throw e, h')
  end.

Definition throw {A : Type} (e : exception) : M A := fun h => (Throw e, h).

Definition lift {A : Type} (r : outcome A) : M A := fun h => (r, h).

(** ** [SimpleArray<T>] *)

Record SimpleArray : Type := {
  value_type : DataType.t;
  shape : shape_type;
  buffer : positive;
}.

Definition nelem (s : shape_type) : nat := Z.to_nat (fold_right Z.mul 1 s).

(** Modelled from the spec: [SimpleArray<T>(shape)] builds an owning
    buffer sized [product(shape) * sizeof(T)], content uninitialised.  The
    store is unbounded: allocation does not fail. *)
Definition SimpleArray_new (T : DataType.t) (s : shape_type) : M SimpleArray :=
  fun h =>
    let b := fresh (dom h) in
    (Ret {| value_type := T; shape := s; buffer := b |},
     <[b := replicate (nelem s) Indeterminate]> h).

(** Modelled from the spec: [fill(value)] writes [value] to every element
    and always succeeds. *)
Definition fill (a : SimpleArray) (v : scalar) : M unit :=
  fun h => (Ret tt, alter (fun elems => replicate (length elems) v) (buffer a) h).

(** Modelled from the spec: the copy constructor [SimpleArray<T>(other)]
    makes a fresh array with freshly owned storage, a clone of the
    other's buffer.  The result is a [SimpleArray<T>] for the [T] the
    caller names. *)
Definition SimpleArray_copy (T : DataType.t) (other : SimpleArray) : M SimpleArray :=
  fun h =>
    let b := fresh (dom h) in
    (Ret {| value_type := T; shape := shape other; buffer := b |},
     <[b := h !!! buffer other]> h).

(** ** [SimpleArrayPlex] *)

Record SimpleArrayPlex : Type := {
  data_type : DataType.t;
  instance_ptr : SimpleArray;
}.

(** Modelled from the spec: [SimpleArrayPlex(shape, dtype)] parses the
    name against the enumeration, fails with "unsupported datatype" if
    there is no match, and otherwise allocates the [SimpleArray<T>] of the
    matched [T]. *)
Definition SimpleArrayPlex_new (s : shape_type) (datatype : string) : M SimpleArrayPlex :=
  match DataType.from_string datatype with
  | Some D =>
      a ← SimpleArray_new D s;
      mret {| data_type := D; instance_ptr := a |}
  | None => throw (runtime_error "Unsupported datatype")
  end.

(** A block whose local [plex] is destroyed when an exception leaves it:
    the destructor releases the buffer of the array it owns. *)
Definition with_local {A : Type} (plex : SimpleArrayPlex) (body : M A) : M A :=
  fun h =>
    match body h with
    | (Throw e, h') => (Throw e, delete (buffer (instance_ptr plex)) h')
    | r => r
    end.

(** ** The wrapper: [WrapSimpleArrayPlex] *)

(** [array->fill(v)] on a [SimpleArray<T>] with an integer [v]: the
    argument is converted to the element type [T] of the array. *)
Definition fill_integral (T : CInt.type) (a : SimpleArray) (v : Z) : M unit :=
  fill a (Integer (CInt.convert T v)).

(** The constructor [(shape, dtype)]:
    [wrapped_type(make_shape(shape), datatype)]. *)
Definition init_array_plex (shape_in : Py.object) (datatype : string) : M SimpleArrayPlex :=
  s ← lift (make_shape shape_in);
  SimpleArrayPlex_new s datatype.

(** The constructor [(shape, value, dtype)]. *)
Definition init_array_plex_with_value
    (shape_in value : Py.object) (datatype : string) : M SimpleArrayPlex :=
  s ← lift (make_shape shape_in);
  array_plex ← SimpleArrayPlex_new s datatype;
  with_local array_plex (
    let array := instance_ptr array_plex in
    match data_type array_plex with
    | DataType.Bool =>
        if negb (Py.isinstance_bool_ value)
        then throw (runtime_error "Data type mismatch, expected Python bool")
        else v ← lift (Py.cast_bool value); fill array (Boolean v)
    | DataType.Int8 =>
        if negb (Py.isinstance_int_ value)
        then throw (runtime_error "Data type mismatch, expected Python int")
        else v ← lift (Py.cast_integral CInt.int8_t value);
             fill_integral CInt.int8_t array v
    | DataType.Int16 =>
        if negb (Py.isinstance_int_ value)
        then throw (runtime_error "Data type mismatch, expected Python int")
        else v ← lift (Py.cast_integral CInt.int16_t value);
             fill_integral CInt.int16_t array v
    | DataType.Int32 =>
        if negb (Py.isinstance_int_ value)
        then throw (runtime_error "Data type mismatch, expected Python int")
        else v ← lift (Py.cast_integral CInt.int32_t value);
             fill_integral CInt.int32_t array v
    | DataType.Int64 =>
        if negb (Py.isinstance_int_ value)
        then throw (runtime_error "Data type mismatch, expected Python int")
        else v ← lift (Py.cast_integral CInt.int64_t value);
             fill_integral CInt.int64_t array v
    | DataType.Uint8 =>
        if negb (Py.isinstance_int_ value)
        then throw (runtime_error "Data type mismatch, expected Python int")
        else v ← lift (Py.cast_integral CInt.uint8_t value);
             fill_integral CInt.uint8_t array v
    | DataType.Uint16 =>
        if negb (Py.isinstance_int_ value)
        then throw (runtime_error "Data type mismatch, expected Python int")
        else v ← lift (Py.cast_integral CInt.uint16_t value);
             fill_integral CInt.uint16_t array v
    | DataType.Uint32 =>
        if negb (Py.isinstance_int_ value)
        then throw (runtime_error "Data type mismatch, expected Python int")
        else v ← lift (Py.cast_integral CInt.int32_t value);
             fill_integral CInt.uint32_t array v
    | DataType.Uint64 =>
        if negb (Py.isinstance_int_ value)
        then throw (runtime_error "Data type mismatch, expected Python int")
        else v ← lift (Py.cast_integral CInt.int64_t value);
             fill_integral CInt.uint64_t array v
    | DataType.Float32 =>
        if negb (Py.isinstance_float_ value)
        then throw (runtime_error "Data type mismatch, expected Python float")
        else v ← lift (Py.cast_float value); fill array (Real v)
    | DataType.Float64 =>
        if negb (Py.isinstance_float_ value)
        then throw (runtime_error "Data type mismatch, expected Python float")
        else v ← lift (Py.cast_double value); fill array (Real v)
    | DataType.Undefined => throw (runtime_error "Unsupported datatype")
    end;;
    mret array_plex).

(** The property [typed]: a copy of the owned array at the element type
    the tag selects. *)
Definition get_typed_array (array_plex : SimpleArrayPlex) : M SimpleArray :=
  let array := instance_ptr array_plex in
  match data_type array_plex with
  | DataType.Bool => SimpleArray_copy DataType.Bool array
  | DataType.Int8 => SimpleArray_copy DataType.Int8 array
  | DataType.Int16 => SimpleArray_copy DataType.Int16 array
  | DataType.Int32 => SimpleArray_copy DataType.Int32 array
  | DataType.Int64 => SimpleArray_copy DataType.Int64 array
  | DataType.Uint8 => SimpleArray_copy DataType.Uint8 array
  | DataType.Uint16 => SimpleArray_copy DataType.Uint16 array
  | DataType.Uint32 => SimpleArray_copy DataType.Uint32 array
  | DataType.Uint64 => SimpleArray_copy DataType.Uint64 array
  | DataType.Float32 => SimpleArray_copy DataType.Float32 array
  | DataType.Float64 => SimpleArray_copy DataType.Float64 array
  | DataType.Undefined => throw (runtime_error "Unsupported datatype")
  end.

(** The C++ type named in [value.cast<...>()] by the branch of
    [init_array_plex_with_value] for an integer tag. *)
Definition cast_target (D : DataType.t) : option CInt.type :=
  match D with
  | DataType.Int8 => Some CInt.int8_t
  | DataType.Int16 => Some CInt.int16_t
  | DataType.Int32 => Some CInt.int32_t
  | DataType.Int64 => Some CInt.int64_t
  | DataType.Uint8 => Some CInt.uint8_t
  | DataType.Uint16 => Some CInt.uint16_t
  | DataType.Uint32 => Some CInt.int32_t
  | DataType.Uint64 => Some CInt.int64_t
  | _ => None
  end.

(** What a caller sees of a successful value-fill construction from the
    store [h]: a plex tagged [D] over an array of shape [s] whose buffer
    is new and holds [v] in every element. *)
Definition yields_filled
    (r : outcome SimpleArrayPlex * heap) (h : heap)
    (D : DataType.t) (s : shape_type) (v : scalar) : Prop :=
  exists plex h',
    r = (Ret plex, h') ∧
    data_type plex = D ∧
    value_type (instance_ptr plex) = D ∧
    shape (instance_ptr plex) = s ∧
    h !! buffer (instance_ptr plex) = None ∧
    h' = <[buffer (instance_ptr plex) := replicate (nelem s) v]> h.

(** ** Cell types ([mesh.hpp]) *)

Module CellTypeBase.

(** Symbols for type id codes. *)
Definition NONCELLTYPE : Z := 0.
Definition POINT : Z := 1.
Definition LINE : Z := 2.
Definition QUADRILATERAL : Z := 3.
Definition TRIANGLE : Z := 4.
Definition HEXAHEDRON : Z := 5.
Definition TETRAHEDRON : Z := 6.
Definition PRISM : Z := 7.
Definition PYRAMID : Z := 8.
Definition NTYPE : Z := 8.

(** Maximum number of nodes in a face, of cells in a face, of nodes in
    a cell and of faces in a cell. *)
Definition FCNND_MAX : Z := 4.
Definition FCNCL_MAX : Z := 2.
Definition CLNND_MAX : Z := 8.
Definition CLNFC_MAX : Z := 6.

End CellTypeBase.

Module CellType.

(** [CellType<ND>]: the template argument is kept as the field [NDIM],
    the four [uint8_t] members follow. *)
Record t : Type := {
  NDIM : Z;
  m_id : Z;
  m_nnode : Z;
  m_nedge : Z;
  m_nsurface : Z;
}.

(** [CellType<ND>(id_in, nnode_in, nedge_in, nsurface_in)] *)
Definition make (ND id_in nnode_in nedge_in nsurface_in : Z) : t :=
  {| NDIM := ND; m_id := id_in; m_nnode := nnode_in;
     m_nedge := nedge_in; m_nsurface := nsurface_in |}.

Definition id (c : t) : Z := m_id c.
Definition ndim (c : t) : Z := NDIM c.
Definition nnode (c : t) : Z := m_nnode c.
Definition nedge (c : t) : Z := m_nedge c.
Definition nsurface (c : t) : Z := m_nsurface c.

Definition nface (c : t) : Z :=
  if 2 =? NDIM c then nedge c
  else if 3 =? NDIM c then nsurface c
  else 0.

Definition name (c : t) : string :=
  if id c =? CellTypeBase.POINT then "point"
  else if id c =? CellTypeBase.LINE then "line"
  else if id c =? CellTypeBase.QUADRILATERAL then "quadrilateral"
  else if id c =? CellTypeBase.TRIANGLE then "triangle"
  else if id c =? CellTypeBase.HEXAHEDRON then "hexahedron"
  else if id c =? CellTypeBase.TETRAHEDRON then "tetrahedron"
  else if id c =? CellTypeBase.PRISM then "prism"
  else if id c =? CellTypeBase.PYRAMID then "pyramid"
  else "noncelltype".

End CellType.

(** [MM_DECL_CELL_TYPE(NAME, TYPE, NDIM, NNODE, NEDGE, NSURFACE)] declares
    [NAME##CellType] as [CellType<NDIM>(TYPE, NNODE, NEDGE, NSURFACE)]. *)
Definition PointCellType : CellType.t := CellType.make 0 1 1 0 0.
Definition LineCellType : CellType.t := CellType.make 1 2 2 0 0.
Definition QuadrilateralCellType : CellType.t := CellType.make 2 3 4 4 0.
Definition TriangleCellType : CellType.t := CellType.make 2 4 3 3 0.
Definition HexahedronCellType : CellType.t := CellType.make 3 5 8 12 6.
Definition TetrahedronCellType : CellType.t := CellType.make 3 6 4 6 4.
Definition PrismCellType : CellType.t := CellType.make 3 7 6 9 5.
Definition PyramidCellType : CellType.t := CellType.make 3 8 5 8 5.

Definition cell_types : list CellType.t :=
  [PointCellType; LineCellType; QuadrilateralCellType; TriangleCellType;
   HexahedronCellType; TetrahedronCellType; PrismCellType; PyramidCellType].

(** ** The unstructured mesh ([mesh.hpp]) *)

Module StaticMeshBase.

Record t : Type := {
  m_nnode : Z;
  m_nface : Z;
  m_ncell : Z;
  m_nbound : Z;
  m_ngstnode : Z;
  m_ngstface : Z;
  m_ngstcell : Z;
  m_use_incenter : bool;
  (* geometry arrays *)
  m_ndcrd : SimpleArray;
  m_fccnd : SimpleArray;
  m_fcnml : SimpleArray;
  m_fcara : SimpleArray;
  m_clcnd : SimpleArray;
  m_clvol : SimpleArray;
  (* meta arrays *)
  m_fctpn : SimpleArray;
  m_cltpn : SimpleArray;
  m_clgrp : SimpleArray;
  (* connectivity arrays *)
  m_fcnds : SimpleArray;
  m_fccls : SimpleArray;
  m_clnds : SimpleArray;
  m_clfcs : SimpleArray;
}.

Definition FCMND : Z := CellTypeBase.FCNND_MAX.
Definition FCMCL : Z := CellTypeBase.FCNCL_MAX.
Definition CLMND : Z := CellTypeBase.CLNND_MAX.
Definition CLMFC : Z := CellTypeBase.CLNFC_MAX.
Definition FCNCL : Z := 4.
Definition FCREL : Z := 4.
Definition BFREL : Z := 3.

Section Space.

(** [SpaceBase<ND>], declared in [base.hpp], gives the dimension and
    the element types of the tables: [real_type] for geometry,
    [int_type] for the meta and connectivity arrays. *)
Variable NDIM : Z.
Variables int_type real_type : DataType.t.

(** The constructor [StaticMeshBase(nnode, nface, ncell, nbound)]: the
    members are initialised in the order of their declaration. *)
Definition construct (nnode nface ncell nbound : Z) : M t :=
  ndcrd ← SimpleArray_new real_type [nnode; NDIM];
  fccnd ← SimpleArray_new real_type [nface; NDIM];
  fcnml ← SimpleArray_new real_type [nface; NDIM];
  fcara ← SimpleArray_new real_type [nface];
  clcnd ← SimpleArray_new real_type [ncell; NDIM];
  clvol ← SimpleArray_new real_type [ncell];
  fctpn ← SimpleArray_new int_type [ncell];
  cltpn ← SimpleArray_new int_type [ncell];
  clgrp ← SimpleArray_new int_type [ncell];
  fcnds ← SimpleArray_new int_type [nface; FCMND];
  fccls ← SimpleArray_new int_type [nface; FCMCL];
  clnds ← SimpleArray_new int_type [ncell; CLMND];
  clfcs ← SimpleArray_new int_type [ncell; CLMFC];
  mret {|
    m_nnode := nnode; m_nface := nface; m_ncell := ncell;
    m_nbound := nbound;
    m_ngstnode := 0; m_ngstface := 0; m_ngstcell := 0;
    m_use_incenter := false;
    m_ndcrd := ndcrd; m_fccnd := fccnd; m_fcnml := fcnml;
    m_fcara := fcara; m_clcnd := clcnd; m_clvol := clvol;
    m_fctpn := fctpn; m_cltpn := cltpn; m_clgrp := clgrp;
    m_fcnds := fcnds; m_fccls := fccls; m_clnds := clnds;
    m_clfcs := clfcs;
  |}.

End Space.

Definition nnode (m : t) : Z := m_nnode m.
Definition nface (m : t) : Z := m_nface m.
Definition ncell (m : t) : Z := m_ncell m.
Definition nbound (m : t) : Z := m_nbound m.
Definition ngstnode (m : t) : Z := m_ngstnode m.
Definition ngstface (m : t) : Z := m_ngstface m.
Definition ngstcell (m : t) : Z := m_ngstcell m.

(** [MM_DECL_StaticMesh_ARRAY(TYPE, NAME)]: the accessor [NAME()]
    returns the member [m_NAME]. *)
Definition ndcrd (m : t) : SimpleArray := m_ndcrd m.
Definition fccnd (m : t) : SimpleArray := m_fccnd m.
Definition fcnml (m : t) : SimpleArray := m_fcnml m.
Definition fcara (m : t) : SimpleArray := m_fcara m.
Definition clcnd (m : t) : SimpleArray := m_clcnd m.
Definition clvol (m : t) : SimpleArray := m_clvol m.
Definition fctpn (m : t) : SimpleArray := m_fctpn m.
Definition cltpn (m : t) : SimpleArray := m_cltpn m.
Definition clgrp (m : t) : SimpleArray := m_clgrp m.
Definition fcnds (m : t) : SimpleArray := m_fcnds m.
Definition fccls (m : t) : SimpleArray := m_fccls m.
Definition clnds (m : t) : SimpleArray := m_clnds m.
Definition clfcs (m : t) : SimpleArray := m_clfcs m.

End StaticMeshBase.

(** [StaticMesh2d] and [StaticMesh3d] inherit the constructor at
    dimension 2 and 3. *)
Definition StaticMesh2d := StaticMeshBase.construct 2.
Definition StaticMesh3d := StaticMeshBase.construct 3.

(** ** Vocabulary of the statements *)

(** The check and the cast of one branch of [init_array_plex_with_value],
    by family: what is written to every element, or what is thrown. *)
Definition fill_value (D : DataType.t) (value : Py.object) : outcome scalar :=
  match DataType.family_of D with
  | Some DataType.BoolFamily =>
      if Py.isinstance_bool_ value
      then match Py.cast_bool value with
           | Ret b => Ret (Boolean b)
           | Throw e => Throw e
           end
      else Throw (runtime_error "Data type mismatch, expected Python bool")
  | Some DataType.IntegerFamily =>
      if Py.isinstance_int_ value
      then match cast_target D, DataType.ctype D with
           | Some Tcast, Some T =>
               match Py.cast_integral Tcast value with
               | Ret z => Ret (Integer (CInt.convert T z))
               | Throw e => Throw e
               end
           | _, _ => Throw cast_error
           end
      else Throw (runtime_error "Data type mismatch, expected Python int")
  | Some DataType.FloatFamily =>
      if Py.isinstance_float_ value
      then match (if decide (D = DataType.Float32)
                  then Py.cast_float value else Py.cast_double value) with
           | Ret f => Ret (Real f)
           | Throw e => Throw e
           end
      else Throw (runtime_error "Data type mismatch, expected Python float")
  | None => Throw (runtime_error "Unsupported datatype")
  end.

(** The kind of a value, named by the family of dtypes it is meant for:
    a Python [bool] is a boolean value, an [int] an integral value and a
    [float] a floating value; other objects have no kind. *)
Definition value_kind (value : Py.object) : option DataType.family :=
  match value with
  | Py.Bool _ => Some DataType.BoolFamily
  | Py.Int _ => Some DataType.IntegerFamily
  | Py.Float _ => Some DataType.FloatFamily
  | _ => None
  end.

(** The instance check that the branch of a dtype makes on the value. *)
Definition passes_check (value : Py.object) (D : DataType.t) : bool :=
  match DataType.family_of D with
  | Some DataType.BoolFamily => Py.isinstance_bool_ value
  | Some DataType.IntegerFamily => Py.isinstance_int_ value
  | Some DataType.FloatFamily => Py.isinstance_float_ value
  | None => false
  end.

(** [m] run from the store [h] returns, without throwing, a result
    satisfying [P]. *)
Definition returns {A : Type} (m : M A) (h : heap) (P : A -> Prop) : Prop :=
  exists a h', m h = (Ret a, h') ∧ P a.

(** [m] run from the store [h] returns, without throwing, a result and
    a store satisfying [Q]. *)
Definition returns_in {A : Type} (m : M A) (h : heap) (Q : A -> heap -> Prop) : Prop :=
  exists a h', m h = (Ret a, h') ∧ Q a h'.

(** The buffers [bs], with their contents, were allocated on the way from
    the store [h0] to the store [h]: they are distinct, none of them
    existed in [h0], and [h] still holds everything [h0] held. *)
Definition allocated_since (h0 h : heap) (bs : list (positive * list scalar)) : Prop :=
  h0 ⊆ h
  ∧ NoDup bs.*1
  ∧ Forall (fun bx => h0 !! bx.1 = None ∧ h !! bx.1 = Some bx.2) bs.

(** An element is of the type the tag names: a boolean, an integer in
    the range of the element type, or a real. *)
Definition well_typed (D : DataType.t) (v : scalar) : bool :=
  match DataType.family_of D, v with
  | Some DataType.BoolFamily, Boolean _ => true
  | Some DataType.IntegerFamily, Integer z =>
      match DataType.ctype D with
      | Some T => CInt.in_range T z
      | None => false
      end
  | Some DataType.FloatFamily, Real _ => true
  | _, _ => false
  end.

(** The thirteen tables of a mesh, in the order of their declaration,
    and the two groups [MM_DECL_StaticMesh_ARRAY] declares them in:
    [real_type] for the geometry arrays, [int_type] for the meta and
    connectivity arrays. *)
Definition geometry_tables (m : StaticMeshBase.t) : list SimpleArray :=
  [StaticMeshBase.ndcrd m; StaticMeshBase.fccnd m; StaticMeshBase.fcnml m;
   StaticMeshBase.fcara m; StaticMeshBase.clcnd m; StaticMeshBase.clvol m].

Definition integer_tables (m : StaticMeshBase.t) : list SimpleArray :=
  [StaticMeshBase.fctpn m; StaticMeshBase.cltpn m; StaticMeshBase.clgrp m;
   StaticMeshBase.fcnds m; StaticMeshBase.fccls m; StaticMeshBase.clnds m;
   StaticMeshBase.clfcs m].

Definition tables (m : StaticMeshBase.t) : list SimpleArray :=
  geometry_tables m ++ integer_tables m.

(** * Properties *)

(** ** The store *)

Lemma fresh_unallocated (h : heap) : h !! fresh (dom h) = None.
Proof. apply not_elem_of_dom, is_fresh. Qed.

Lemma from_string_name (D : DataType.t) :
  DataType.supported D = true ->
  DataType.from_string (DataType.name D) = Some D.
Proof. destruct D; (discriminate || reflexivity). Qed.

Lemma from_string_supported (s : string) (D : DataType.t) :
  DataType.from_string s = Some D ->
  DataType.supported D = true ∧ DataType.name D = s.
Proof.
  unfold DataType.from_string. intros H.
  apply find_some in H as [Hin Heq].
  apply String.eqb_eq in Heq. split; [| exact Heq].
  unfold DataType.all in Hin. simpl in Hin.
  repeat (destruct Hin as [<- | Hin]; [reflexivity |]). destruct Hin.
Qed.

(** ** [init_array_plex_with_value], one equation for all branches *)

Lemma init_array_plex_with_value_eq
    (shape_in value : Py.object) (s : shape_type) (D : DataType.t) (h : heap) :
  make_shape shape_in = Ret s ->
  DataType.supported D = true ->
  init_array_plex_with_value shape_in value (DataType.name D) h =
    match fill_value D value with
    | Ret v =>
        let b := fresh (dom h) in
        (Ret {| data_type := D;
                instance_ptr := {| value_type := D; shape := s; buffer := b |} |},
         <[b := replicate (nelem s) v]> h)
    | Throw e => (Throw e, h)
    end.
Proof.
  intros Hs HD.
  unfold init_array_plex_with_value, mbind, M_bind, lift.
  rewrite Hs. unfold SimpleArrayPlex_new. rewrite (from_string_name D HD).
  unfold mbind, M_bind, SimpleArray_new, mret, M_ret, with_local.
  pose proof (fresh_unallocated h) as Hb.
  set (b := fresh (dom h)) in *.
  destruct D; try discriminate HD; cbn;
    destruct value; cbn; unfold Py.cast_integral; cbn;
    repeat match goal with
           | |- context [CInt.in_range ?T ?z] => destruct (CInt.in_range T z); cbn
           end;
    unfold fill_integral, fill; cbn;
    rewrite ?alter_insert_eq, ?length_replicate, ?(delete_insert_id _ _ _ Hb);
    reflexivity.
Qed.

(** A value is refused with the mismatch message exactly when it fails
    the instance check of the family of the dtype. *)
Lemma fill_value_mismatch_iff (value : Py.object) (D : DataType.t) :
  DataType.supported D = true ->
  (exists e, fill_value D value = Throw e ∧ is_TypeMismatchError e = true)
  <-> passes_check value D = false.
Proof.
  intros HD. unfold fill_value, passes_check. split.
  - intros [e [He Hm]].
    destruct D; try discriminate HD; cbn in *;
      destruct value; cbn in *; try reflexivity;
      unfold Py.cast_integral in He; cbn in He;
      repeat match type of He with
             | context [CInt.in_range ?T ?z] => destruct (CInt.in_range T z)
             | context [Py.long_as_double ?z] => destruct (Py.long_as_double z)
             end;
      inversion He; subst; discriminate Hm.
  - intros Hc.
    destruct D; try discriminate HD; cbn in *; rewrite Hc;
      eexists; (split; [reflexivity | reflexivity]).
Qed.

(** ** Integral conversions *)

Lemma convert_in_range (T : CInt.type) (z : Z) :
  CInt.in_range T z = true -> CInt.convert T z = z.
Proof.
  unfold CInt.in_range, CInt.convert, CInt.min_value, CInt.max_value.
  intros H. apply andb_true_iff in H as [Hlo Hhi].
  apply Z.leb_le in Hlo, Hhi.
  destruct T; cbn in *;
    repeat match goal with
           | |- context [?a <=? ?b] => destruct (Z.leb_spec a b)
           end;
    Z.div_mod_to_equations; lia.
Qed.

(** Going through the signed type of the same width does not change the
    value an unsigned element receives from a conversion. *)
Lemma convert_unsigned_via_signed (z : Z) :
  CInt.convert CInt.uint32_t (CInt.convert CInt.int32_t z) = CInt.convert CInt.uint32_t z
  ∧ CInt.convert CInt.uint64_t (CInt.convert CInt.int64_t z) = CInt.convert CInt.uint64_t z.
Proof.
  unfold CInt.convert; cbn.
  split;
    repeat match goal with
           | |- context [?a <=? ?b] => destruct (Z.leb_spec a b)
           end;
    Z.div_mod_to_equations; lia.
Qed.

(** ** Value-fill construction *)

(** C2, as the code has it. For every shape, dtype and value whose kind
    (boolean, integral, floating) differs from the family of the dtype,
    the value-fill constructor throws the "Data type mismatch" error,
    returns no array and leaves the store as it found it, with one
    exception: a boolean value for an integer dtype is not refused, the
    constructor returns an array. *)
Theorem kind_mismatch_fails_unless_bool_for_integer
    (shape_in value : Py.object) (s : shape_type) (D : DataType.t)
    (k f : DataType.family) (h : heap) :
  make_shape shape_in = Ret s ->
  value_kind value = Some k ->
  DataType.family_of D = Some f ->
  k ≠ f ->
  (¬ (k = DataType.BoolFamily ∧ f = DataType.IntegerFamily) ->
   exists e,
     init_array_plex_with_value shape_in value (DataType.name D) h = (Throw e, h)
     ∧ is_TypeMismatchError e = true)
  ∧ (k = DataType.BoolFamily -> f = DataType.IntegerFamily ->
     exists plex h',
       init_array_plex_with_value shape_in value (DataType.name D) h
       = (Ret plex, h')).
Proof.
  intros Hs Hk Hf Hne.
  assert (HD : DataType.supported D = true) by (destruct D; done).
  rewrite (init_array_plex_with_value_eq _ _ _ _ _ Hs HD).
  split.
  - intros Hnot.
    assert (Hc : passes_check value D = false).
    { unfold passes_check. rewrite Hf.
      destruct value; try discriminate Hk; injection Hk as <-;
        destruct f; try reflexivity; try (by destruct Hne);
        by destruct Hnot. }
    apply (fill_value_mismatch_iff value D HD) in Hc as (e & -> & He).
    by exists e.
  - intros -> ->.
    destruct value as [| b | | | | |]; try discriminate Hk.
    assert (Hv : fill_value D (Py.Bool b) = Ret (Integer (if b then 1 else 0)))
      by (destruct D; try discriminate Hf; destruct b; reflexivity).
    rewrite Hv. by eexists _, _.
Qed.

Lemma kind_mismatch_fails_unless_bool_for_integer_witness :
  (exists e,
      init_array_plex_with_value (Py.List [Py.Int 2; Py.Int 3]) (Py.Bool true)
        (DataType.name DataType.Float64) ∅ = (Throw e, ∅)
      ∧ is_TypeMismatchError e = true)
  ∧ (exists e,
        init_array_plex_with_value (Py.List [Py.Int 2; Py.Int 3]) (Py.Float 1.5)
          (DataType.name DataType.Bool) ∅ = (Throw e, ∅)
        ∧ is_TypeMismatchError e = true)
  ∧ (exists e,
        init_array_plex_with_value (Py.List [Py.Int 2; Py.Int 3]) (Py.Int 1)
          (DataType.name DataType.Float32) ∅ = (Throw e, ∅)
        ∧ is_TypeMismatchError e = true).
Proof.
  split_and!.
  - apply (proj1 (kind_mismatch_fails_unless_bool_for_integer
                    (Py.List [Py.Int 2; Py.Int 3]) (Py.Bool true) [2; 3]
                    DataType.Float64 DataType.BoolFamily DataType.FloatFamily ∅
                    eq_refl eq_refl eq_refl ltac:(discriminate))).
    intros [_ Hf]. discriminate Hf.
  - apply (proj1 (kind_mismatch_fails_unless_bool_for_integer
                    (Py.List [Py.Int 2; Py.Int 3]) (Py.Float 1.5) [2; 3]
                    DataType.Bool DataType.FloatFamily DataType.BoolFamily ∅
                    eq_refl eq_refl eq_refl ltac:(discriminate))).
    intros [Hk _]. discriminate Hk.
  - apply (proj1 (kind_mismatch_fails_unless_bool_for_integer
                    (Py.List [Py.Int 2; Py.Int 3]) (Py.Int 1) [2; 3]
                    DataType.Float32 DataType.IntegerFamily DataType.FloatFamily ∅
                    eq_refl eq_refl eq_refl ltac:(discriminate))).
    intros [Hk _]. discriminate Hk.
Defined.

(** C2, as stated, fails: [True] is a boolean value and int8 an integer
    dtype, so the kind does not match the family, yet the constructor
    does not throw the mismatch error: it returns an int8 array of
    shape [3] filled with 1. *)
Lemma bool_for_int8_is_not_refused :
  value_kind (Py.Bool true) = Some DataType.BoolFamily
  ∧ DataType.family_of DataType.Int8 = Some DataType.IntegerFamily
  ∧ DataType.BoolFamily ≠ DataType.IntegerFamily
  ∧ make_shape (Py.Int 3) = Ret [3]
  ∧ init_array_plex_with_value (Py.Int 3) (Py.Bool true)
      (DataType.name DataType.Int8) ∅
    = (Ret {| data_type := DataType.Int8;
              instance_ptr := {| value_type := DataType.Int8; shape := [3];
                                 buffer := 1%positive |} |},
       {[ 1%positive := [Integer 1; Integer 1; Integer 1] ]})
  ∧ ¬ (exists e h',
          init_array_plex_with_value (Py.Int 3) (Py.Bool true)
            (DataType.name DataType.Int8) ∅ = (Throw e, h')
          ∧ is_TypeMismatchError e = true).
Proof.
  assert (H : init_array_plex_with_value (Py.Int 3) (Py.Bool true)
                (DataType.name DataType.Int8) ∅
              = (Ret {| data_type := DataType.Int8;
                        instance_ptr := {| value_type := DataType.Int8;
                                           shape := [3];
                                           buffer := 1%positive |} |},
                 {[ 1%positive := [Integer 1; Integer 1; Integer 1] ]}))
    by (vm_compute; reflexivity).
  split_and!; try done.
  intros (e & h' & Hr & _). rewrite H in Hr. discriminate Hr.
Qed.

(** C3, as the code has it. For every integer dtype, shape and integral
    value that fits both the element type of the dtype and the type the
    branch casts to, the constructor yields an array in which every
    element equals the value; and where the branch casts to the element
    type itself, a value outside its range is not truncated: the cast
    throws and no array is produced. *)
Theorem integral_value_fills_or_cast_fails
    (shape_in : Py.object) (s : shape_type) (D : DataType.t)
    (T Tcast : CInt.type) (V : Z) (h : heap) :
  make_shape shape_in = Ret s ->
  DataType.ctype D = Some T ->
  cast_target D = Some Tcast ->
  (CInt.in_range T V = true -> CInt.in_range Tcast V = true ->
   yields_filled
     (init_array_plex_with_value shape_in (Py.Int V) (DataType.name D) h)
     h D s (Integer V))
  ∧ (Tcast = T -> CInt.in_range T V = false ->
     init_array_plex_with_value shape_in (Py.Int V) (DataType.name D) h
     = (Throw cast_error, h)).
Proof.
  intros Hs HT HTc.
  assert (HD : DataType.supported D = true) by (destruct D; done).
  assert (Hf : DataType.family_of D = Some DataType.IntegerFamily)
    by (destruct D; done).
  rewrite (init_array_plex_with_value_eq _ _ _ _ _ Hs HD).
  unfold fill_value. rewrite Hf, HT, HTc. cbn. unfold Py.cast_integral. cbn.
  split.
  - intros Hin Hinc. rewrite Hinc, (convert_in_range _ _ Hin).
    eexists _, _. split; [reflexivity |]. cbn.
    repeat split. apply fresh_unallocated.
  - intros -> Hout. by rewrite Hout.
Qed.

Lemma integral_value_fills_or_cast_fails_witness :
  yields_filled
    (init_array_plex_with_value (Py.Int 3) (Py.Int 100) (DataType.name DataType.Int8) ∅)
    ∅ DataType.Int8 [3] (Integer 100)
  ∧ init_array_plex_with_value (Py.Int 3) (Py.Int 300) (DataType.name DataType.Int8) ∅
    = (Throw cast_error, ∅).
Proof.
  split.
  - apply (integral_value_fills_or_cast_fails
             (Py.Int 3) [3] DataType.Int8 CInt.int8_t CInt.int8_t 100 ∅);
      reflexivity.
  - apply (integral_value_fills_or_cast_fails
             (Py.Int 3) [3] DataType.Int8 CInt.int8_t CInt.int8_t 300 ∅);
      reflexivity.
Defined.

(** C3, as stated, fails: an int8 array of shape [3] built with the
    value 300 is not filled with 300 truncated to 8 bits (44); the
    constructor throws the cast error and there is no array. *)
Lemma int8_value_300_is_not_truncated :
  CInt.convert CInt.int8_t 300 = 44
  ∧ init_array_plex_with_value (Py.Int 3) (Py.Int 300) "int8" ∅
    = (Throw cast_error, ∅)
  ∧ ¬ yields_filled
        (init_array_plex_with_value (Py.Int 3) (Py.Int 300) "int8" ∅)
        ∅ DataType.Int8 [3] (Integer (CInt.convert CInt.int8_t 300)).
Proof.
  assert (H : init_array_plex_with_value (Py.Int 3) (Py.Int 300) "int8" ∅
              = (Throw cast_error, ∅)) by (vm_compute; reflexivity).
  split; [reflexivity |]. split; [exact H |].
  intros (plex & h' & Hr & _). rewrite H in Hr. discriminate Hr.
Qed.

(** The uint32 and uint64 branches cast to [int32_t] and [int64_t]: a
    value of the upper half of the unsigned range is refused, and a
    negative value is accepted and wraps. *)
Example uint32_upper_half_refused :
  init_array_plex_with_value (Py.Int 3) (Py.Int 3000000000) "uint32" ∅
  = (Throw cast_error, ∅).
Proof. vm_compute. reflexivity. Qed.

Example uint32_negative_wraps :
  yields_filled
    (init_array_plex_with_value (Py.Int 3) (Py.Int (-1)) "uint32" ∅)
    ∅ DataType.Uint32 [3] (Integer 4294967295).
Proof.
  eexists _, _. split; [vm_compute; reflexivity |].
  repeat split.
Qed.

Example uint64_upper_half_refused :
  init_array_plex_with_value (Py.Int 3) (Py.Int (2 ^ 63)) "uint64" ∅
  = (Throw cast_error, ∅).
Proof. vm_compute. reflexivity. Qed.

(** C9. For every integer dtype and shape, the value-fill constructor
    accepts a Python [bool]: it passes the [int] instance check, and every
    element is set to 0 or 1. *)
Theorem bool_value_accepted_for_integer_dtype
    (shape_in : Py.object) (s : shape_type) (D : DataType.t) (b : bool) (h : heap) :
  make_shape shape_in = Ret s ->
  DataType.family_of D = Some DataType.IntegerFamily ->
  Py.isinstance_int_ (Py.Bool b) = true
  ∧ yields_filled
      (init_array_plex_with_value shape_in (Py.Bool b) (DataType.name D) h)
      h D s (Integer (if b then 1 else 0)).
Proof.
  intros Hs Hf. split; [reflexivity |].
  assert (HD : DataType.supported D = true) by (destruct D; done).
  rewrite (init_array_plex_with_value_eq _ _ _ _ _ Hs HD).
  assert (Hv : fill_value D (Py.Bool b) = Ret (Integer (if b then 1 else 0)))
    by (destruct D; try discriminate Hf; destruct b; reflexivity).
  rewrite Hv. eexists _, _. split; [reflexivity |]. cbn.
  repeat split. apply fresh_unallocated.
Qed.

Lemma bool_value_accepted_for_integer_dtype_witness :
  Py.isinstance_int_ (Py.Bool true) = true
  ∧ yields_filled
      (init_array_plex_with_value (Py.Tuple [Py.Int 2; Py.Int 2]) (Py.Bool true)
         (DataType.name DataType.Uint16) ∅)
      ∅ DataType.Uint16 [2; 2] (Integer 1).
Proof.
  apply (bool_value_accepted_for_integer_dtype _ [2; 2] DataType.Uint16 true);
    reflexivity.
Defined.

(** ** [typed]: a copy with its own storage *)

Lemma init_array_plex_eq
    (shape_in : Py.object) (s : shape_type) (D : DataType.t) (h : heap) :
  make_shape shape_in = Ret s ->
  DataType.supported D = true ->
  init_array_plex shape_in (DataType.name D) h =
    let b := fresh (dom h) in
    (Ret {| data_type := D;
            instance_ptr := {| value_type := D; shape := s; buffer := b |} |},
     <[b := replicate (nelem s) Indeterminate]> h).
Proof.
  intros Hs HD. unfold init_array_plex, mbind, M_bind, lift.
  rewrite Hs. unfold SimpleArrayPlex_new. by rewrite (from_string_name D HD).
Qed.

Lemma get_typed_array_eq (plex : SimpleArrayPlex) (h : heap) :
  DataType.supported (data_type plex) = true ->
  get_typed_array plex h =
    let b := fresh (dom h) in
    (Ret {| value_type := data_type plex;
            shape := shape (instance_ptr plex);
            buffer := b |},
     <[b := h !!! buffer (instance_ptr plex)]> h).
Proof.
  destruct plex as [D a]. cbn. intros HD.
  unfold get_typed_array. cbn. destruct D; try discriminate HD; reflexivity.
Qed.

(** C4. For every supported dtype and shape, [construct(S, D)] returns a
    plex, and [typed] of it, right away or after any writes to its array,
    yields an array of element type [D] and shape [S] that is a copy in
    storage of its own: its buffer did not exist before, it holds
    element for element what the buffer of the plex holds at the time of
    the call, nothing else in the store changes, and filling either of
    the two afterwards leaves the other as it was.  On a tag outside the
    enumeration [typed] throws "Unsupported datatype". *)
Theorem typed_is_fresh_copy
    (shape_in : Py.object) (s : shape_type) (D : DataType.t)
    (a : SimpleArray) (h : heap) :
  make_shape shape_in = Ret s ->
  DataType.supported D = true ->
  (exists plex h1,
      init_array_plex shape_in (DataType.name D) h = (Ret plex, h1)
      ∧ data_type plex = D
      ∧ shape (instance_ptr plex) = s
      ∧ h1 !! buffer (instance_ptr plex)
        = Some (replicate (nelem s) Indeterminate)
      ∧ (forall (h1' : heap) (elems : list scalar),
            h1' !! buffer (instance_ptr plex) = Some elems ->
            exists typed h2,
              get_typed_array plex h1' = (Ret typed, h2)
              ∧ value_type typed = D
              ∧ shape typed = s
              ∧ buffer typed ≠ buffer (instance_ptr plex)
              ∧ h1' !! buffer typed = None
              ∧ h2 !! buffer typed = Some elems
              ∧ (forall b x, h1' !! b = Some x -> h2 !! b = Some x)
              ∧ (forall v, exists h3,
                    fill (instance_ptr plex) v h2 = (Ret tt, h3)
                    ∧ h3 !! buffer (instance_ptr plex)
                      = Some (replicate (length elems) v)
                    ∧ h3 !! buffer typed = Some elems)
              ∧ (forall v, exists h3,
                    fill typed v h2 = (Ret tt, h3)
                    ∧ h3 !! buffer typed = Some (replicate (length elems) v)
                    ∧ h3 !! buffer (instance_ptr plex) = Some elems)))
  ∧ (exists e,
        get_typed_array {| data_type := DataType.Undefined; instance_ptr := a |} h
        = (Throw e, h)
        ∧ is_UnsupportedDatatypeError e = true).
Proof.
  intros Hs HD. split; [| eexists; split; reflexivity].
  pose proof (init_array_plex_eq _ _ _ h Hs HD) as E1. cbn zeta in E1.
  set (b := fresh (dom h)) in E1.
  set (h1 := <[b := replicate (nelem s) Indeterminate]> h) in E1.
  set (plex := {| data_type := D;
                  instance_ptr := {| value_type := D; shape := s; buffer := b |} |})
    in E1.
  exists plex, h1. split; [exact E1 |].
  cbn [value_type shape buffer instance_ptr data_type plex].
  split_and!; try done.
  { apply lookup_insert_eq. }
  intros h1' elems Hb.
  pose proof (get_typed_array_eq plex h1' HD) as E2. cbn zeta in E2.
  cbn [value_type shape buffer instance_ptr data_type plex] in E2.
  rewrite (lookup_total_alt h1' b), Hb in E2. cbn [default from_option] in E2.
  pose proof (fresh_unallocated h1') as Hc.
  set (c := fresh (dom h1')) in *.
  assert (Hcb : c ≠ b) by congruence.
  eexists _, _. split; [exact E2 |].
  unfold fill. cbn [value_type shape buffer instance_ptr data_type plex].
  split_and!; try done.
  - apply lookup_insert_eq.
  - intros b' x Hb'. rewrite lookup_insert_ne; [exact Hb' | congruence].
  - intros v. eexists. split; [reflexivity |]. split.
    + rewrite lookup_alter_eq, lookup_insert_ne, Hb by done. reflexivity.
    + rewrite lookup_alter_ne by done. apply lookup_insert_eq.
  - intros v. eexists. split; [reflexivity |]. split.
    + rewrite lookup_alter_eq, lookup_insert_eq. reflexivity.
    + rewrite lookup_alter_ne, lookup_insert_ne by done. exact Hb.
Qed.

Lemma typed_is_fresh_copy_witness :
  exists typed h2,
    get_typed_array
      {| data_type := DataType.Uint32;
         instance_ptr := {| value_type := DataType.Uint32; shape := [2; 3];
                            buffer := 1%positive |} |}
      {[ 1%positive := Integer <$> [1; 2; 3; 4; 5; 6] ]}
    = (Ret typed, h2)
    ∧ value_type typed = DataType.Uint32
    ∧ shape typed = [2; 3]
    ∧ buffer typed ≠ 1%positive
    ∧ h2 !! buffer typed = Some (Integer <$> [1; 2; 3; 4; 5; 6]).
Proof.
  destruct (typed_is_fresh_copy (Py.List [Py.Int 2; Py.Int 3]) [2; 3] DataType.Uint32
              {| value_type := DataType.Bool; shape := []; buffer := 1%positive |} ∅
              eq_refl eq_refl)
    as [(plex & h1 & E1 & _ & _ & _ & Hcopy) _].
  assert (E : init_array_plex (Py.List [Py.Int 2; Py.Int 3])
                (DataType.name DataType.Uint32) ∅
              = (Ret {| data_type := DataType.Uint32;
                        instance_ptr := {| value_type := DataType.Uint32;
                                           shape := [2; 3];
                                           buffer := 1%positive |} |},
                 {[ 1%positive := replicate 6 Indeterminate ]}))
    by (vm_compute; reflexivity).
  rewrite E in E1. injection E1 as <- <-.
  destruct (Hcopy {[ 1%positive := Integer <$> [1; 2; 3; 4; 5; 6] ]}
              (Integer <$> [1; 2; 3; 4; 5; 6]))
    as (typed & h2 & E2 & Ht & Hsh & Hne & _ & Hc & _).
  - vm_compute. reflexivity.
  - exists typed, h2. split_and!; assumption.
Defined.

(** A value filled into a Float64 plex is read back from [typed] bit for
    bit, whatever the double and the shape. *)
Lemma float64_fill_then_typed
    (shape_in : Py.object) (s : shape_type) (f : float) (h : heap) :
  make_shape shape_in = Ret s ->
  exists plex h1 typed h2,
    init_array_plex_with_value shape_in (Py.Float f) "float64" h = (Ret plex, h1)
    ∧ get_typed_array plex h1 = (Ret typed, h2)
    ∧ value_type typed = DataType.Float64
    ∧ shape typed = s
    ∧ h2 !! buffer typed = Some (replicate (nelem s) (Real f)).
Proof.
  intros Hs.
  pose proof (init_array_plex_with_value_eq shape_in (Py.Float f) s
                DataType.Float64 h Hs eq_refl) as E1.
  cbn in E1.
  set (b := fresh (dom h)) in E1.
  set (h1 := <[b := replicate (nelem s) (Real f)]> h) in E1.
  eexists _, h1, _, _. split; [exact E1 |].
  split; [reflexivity |]. cbn. split_and!; try done.
  rewrite lookup_insert_eq, lookup_total_alt. unfold h1.
  by rewrite lookup_insert_eq.
Qed.

(** C5. Round trip: a Float64 plex of shape [3] filled with 2.5 and read
    through [typed] as a Float64 array holds exactly [2.5, 2.5, 2.5]. *)
Theorem float64_roundtrip_2_5 :
  exists plex h1 typed h2,
    init_array_plex_with_value (Py.List [Py.Int 3]) (Py.Float 2.5) "float64" ∅
    = (Ret plex, h1)
    ∧ get_typed_array plex h1 = (Ret typed, h2)
    ∧ value_type typed = DataType.Float64
    ∧ shape typed = [3]
    ∧ h2 !! buffer typed = Some [Real 2.5; Real 2.5; Real 2.5].
Proof.
  destruct (float64_fill_then_typed (Py.List [Py.Int 3]) [3] 2.5 ∅ eq_refl)
    as (plex & h1 & typed & h2 & E1 & E2 & Ht & Hsh & Hc).
  exists plex, h1, typed, h2. split_and!; assumption.
Qed.

(** ** Shapes *)

(** C6. [make_shape] tries the scalar reading first and falls back to the
    sequence reading when the scalar cast fails; for every scalar count
    [n] the scalar form and the one-element sequence give the same
    result, the rank-1 shape [[n]] when [n] is a [size_t]. *)
Theorem make_shape_scalar_then_sequence (shape_in : Py.object) (n : Z) :
  (forall k, Py.cast_integral size_t shape_in = Ret k -> make_shape shape_in = Ret [k])
  ∧ (Py.cast_integral size_t shape_in = Throw cast_error ->
     make_shape shape_in = Py.cast_vector_size_t shape_in)
  ∧ make_shape (Py.Int n) = make_shape (Py.List [Py.Int n])
  ∧ (CInt.in_range size_t n = true ->
     make_shape (Py.Int n) = Ret [n] ∧ make_shape (Py.List [Py.Int n]) = Ret [n]).
Proof.
  split_and!.
  - intros k Hk. unfold make_shape. by rewrite Hk.
  - intros Hk. unfold make_shape. by rewrite Hk.
  - unfold make_shape, Py.cast_integral. cbn.
    destruct (CInt.in_range size_t n); reflexivity.
  - intros Hn. unfold make_shape, Py.cast_integral. cbn. by rewrite Hn.
Qed.

Lemma make_shape_scalar_then_sequence_witness :
  make_shape (Py.Int 5) = Ret [5]
  ∧ make_shape (Py.List [Py.Int 5]) = Ret [5]
  ∧ make_shape (Py.Tuple [Py.Int 4; Py.Int 2]) = Ret [4; 2].
Proof.
  pose proof (make_shape_scalar_then_sequence (Py.Tuple [Py.Int 4; Py.Int 2]) 5)
    as (_ & Hseq & _ & Hn).
  destruct (Hn eq_refl) as [H1 H2].
  split_and!; [exact H1 | exact H2 |].
  rewrite (Hseq eq_refl). reflexivity.
Defined.

(** ** Cell types *)

(** C8. For every cell type the face count is the edge count when the
    dimensionality of the shape is 2 and the surface count when it is
    3. *)
Theorem nface_by_dimension (c : CellType.t) :
  (CellType.ndim c = 2 -> CellType.nface c = CellType.nedge c)
  ∧ (CellType.ndim c = 3 -> CellType.nface c = CellType.nsurface c).
Proof.
  unfold CellType.nface, CellType.ndim. split; intros ->; reflexivity.
Qed.

Lemma nface_by_dimension_witness :
  CellType.nface QuadrilateralCellType = 4
  ∧ CellType.nface HexahedronCellType = 6.
Proof.
  split.
  - rewrite (proj1 (nface_by_dimension QuadrilateralCellType) eq_refl). reflexivity.
  - rewrite (proj2 (nface_by_dimension HexahedronCellType) eq_refl). reflexivity.
Defined.

(** The face counts of the eight declared cell types. *)
Example nface_of_cell_types :
  map CellType.nface cell_types = [0; 0; 4; 3; 6; 4; 5; 5].
Proof. reflexivity. Qed.

(** C10. For every cell type whose dimensionality is neither 2 nor 3 the
    face count is 0; the point (dimensionality 0) and the line
    (dimensionality 1) are the declared ones. *)
Theorem nface_zero_outside_2d_3d (c : CellType.t) :
  (CellType.ndim c ≠ 2 -> CellType.ndim c ≠ 3 -> CellType.nface c = 0)
  ∧ CellType.ndim PointCellType = 0 ∧ CellType.nface PointCellType = 0
  ∧ CellType.ndim LineCellType = 1 ∧ CellType.nface LineCellType = 0.
Proof.
  split_and!; try reflexivity.
  unfold CellType.nface, CellType.ndim. intros H2 H3.
  destruct (Z.eqb_spec 2 (CellType.NDIM c)) as [E | _]; [congruence |].
  destruct (Z.eqb_spec 3 (CellType.NDIM c)) as [E | _]; [congruence |].
  reflexivity.
Qed.

Lemma nface_zero_outside_2d_3d_witness :
  CellType.nface (CellType.make 1 2 2 7 9) = 0.
Proof.
  apply (proj1 (nface_zero_outside_2d_3d (CellType.make 1 2 2 7 9))); discriminate.
Defined.

(** ** The mesh tables *)

Lemma returns_bind
    {A B : Type} (m : M A) (k : A -> M B) (h : heap)
    (P : A -> Prop) (Q : B -> Prop) :
  returns m h P ->
  (forall a h', P a -> returns (k a) h' Q) ->
  returns (m ≫= k) h Q.
Proof.
  intros (a & h' & Hm & HP) Hk.
  destruct (Hk a h' HP) as (b & h'' & Hb & HQ).
  exists b, h''. split; [| exact HQ].
  unfold mbind, M_bind. by rewrite Hm.
Qed.

Lemma returns_mret {A : Type} (a : A) (h : heap) (P : A -> Prop) :
  P a -> returns (mret a) h P.
Proof. intros HP. by exists a, h. Qed.

Lemma returns_SimpleArray_new (T : DataType.t) (s : shape_type) (h : heap) :
  returns (SimpleArray_new T s) h (fun a => value_type a = T ∧ shape a = s).
Proof. eexists _, _. split; [reflexivity |]. by split. Qed.

(** The counts and the shapes of the thirteen tables, as the constructor
    sets them, for every dimension, element types, counts and store. *)
Lemma construct_shapes
    (NDIM : Z) (int_type real_type : DataType.t)
    (nnode nface ncell nbound : Z) (h : heap) :
  returns
    (StaticMeshBase.construct NDIM int_type real_type nnode nface ncell nbound) h
    (fun m =>
       StaticMeshBase.nnode m = nnode ∧ StaticMeshBase.nface m = nface
       ∧ StaticMeshBase.ncell m = ncell ∧ StaticMeshBase.nbound m = nbound
       ∧ StaticMeshBase.ngstnode m = 0 ∧ StaticMeshBase.ngstface m = 0
       ∧ StaticMeshBase.ngstcell m = 0
       ∧ shape (StaticMeshBase.ndcrd m) = [nnode; NDIM]
       ∧ shape (StaticMeshBase.fccnd m) = [nface; NDIM]
       ∧ shape (StaticMeshBase.fcnml m) = [nface; NDIM]
       ∧ shape (StaticMeshBase.fcara m) = [nface]
       ∧ shape (StaticMeshBase.clcnd m) = [ncell; NDIM]
       ∧ shape (StaticMeshBase.clvol m) = [ncell]
       ∧ shape (StaticMeshBase.fctpn m) = [ncell]
       ∧ shape (StaticMeshBase.cltpn m) = [ncell]
       ∧ shape (StaticMeshBase.clgrp m) = [ncell]
       ∧ shape (StaticMeshBase.fcnds m) = [nface; 4]
       ∧ shape (StaticMeshBase.fccls m) = [nface; 2]
       ∧ shape (StaticMeshBase.clnds m) = [ncell; 8]
       ∧ shape (StaticMeshBase.clfcs m) = [ncell; 6]).
Proof.
  unfold StaticMeshBase.construct.
  repeat (eapply returns_bind;
          [apply returns_SimpleArray_new | intros ? ? [_ ?]]).
  apply returns_mret. cbn. split_and!; (reflexivity || assumption).
Qed.

(** C1, at the input where the code departs from it. In the 2-D mesh
    built with counts (4, 5, 2, 3) the face type table [fctpn] has shape
    [[2]], the cell count, and not [[5]], the face count, while the other
    face tables lead with 5. *)
Theorem fctpn_is_sized_by_ncell (int_type real_type : DataType.t) (h : heap) :
  exists m h',
    StaticMesh2d int_type real_type 4 5 2 3 h = (Ret m, h')
    ∧ StaticMeshBase.nface m = 5
    ∧ shape (StaticMeshBase.fctpn m) = [2]
    ∧ shape (StaticMeshBase.fctpn m) ≠ [StaticMeshBase.nface m]
    ∧ shape (StaticMeshBase.fcara m) = [StaticMeshBase.nface m]
    ∧ hd 0 (shape (StaticMeshBase.fccnd m)) = StaticMeshBase.nface m
    ∧ hd 0 (shape (StaticMeshBase.fcnml m)) = StaticMeshBase.nface m
    ∧ hd 0 (shape (StaticMeshBase.fcnds m)) = StaticMeshBase.nface m
    ∧ hd 0 (shape (StaticMeshBase.fccls m)) = StaticMeshBase.nface m.
Proof.
  destruct (construct_shapes 2 int_type real_type 4 5 2 3 h)
    as (m & h' & E & _ & Hnf & _ & _ & _ & _ & _ & _ & Hcd & Hnm & Har & _ & _
        & Htp & _ & _ & Hfn & Hfc & _ & _).
  exists m, h'. rewrite Hnf, Htp, Har, Hcd, Hnm, Hfn, Hfc.
  split_and!; done.
Qed.

(** C7. A 2-D mesh built with counts (nnode=4, nface=5, ncell=2,
    nbound=3) exposes [ndcrd] of shape [[4,2]], [fcnds] of shape [[5,4]],
    [clfcs] of shape [[2,6]], [cltpn] of shape [[2]], and its ghost
    counts read zero. *)
Theorem mesh_2d_4_5_2_3 (int_type real_type : DataType.t) (h : heap) :
  exists m h',
    StaticMesh2d int_type real_type 4 5 2 3 h = (Ret m, h')
    ∧ shape (StaticMeshBase.ndcrd m) = [4; 2]
    ∧ shape (StaticMeshBase.fcnds m) = [5; 4]
    ∧ shape (StaticMeshBase.clfcs m) = [2; 6]
    ∧ shape (StaticMeshBase.cltpn m) = [2]
    ∧ StaticMeshBase.ngstnode m = 0
    ∧ StaticMeshBase.ngstface m = 0
    ∧ StaticMeshBase.ngstcell m = 0.
Proof.
  destruct (construct_shapes 2 int_type real_type 4 5 2 3 h)
    as (m & h' & E & _ & _ & _ & _ & Hgn & Hgf & Hgc & Hnd & _ & _ & _ & _ & _
        & _ & Hct & _ & Hfn & _ & _ & Hcf).
  exists m, h'. split_and!; assumption.
Qed.


(** * Further properties of the wrapper and of the mesh *)

(** ** [make_shape] on sequences *)

Lemma cast_integral_Ret (T : CInt.type) (o : Py.object) (n : Z) :
  Py.cast_integral T o = Ret n -> CInt.in_range T n = true.
Proof.
  unfold Py.cast_integral. destruct (Py.as_long o) as [z |]; [| discriminate].
  destruct (CInt.in_range T z) eqn:Hz; [| discriminate].
  intros [= <-]. exact Hz.
Qed.


Lemma cast_items_Ret_iff (items : list Py.object) (s : shape_type) :
  Py.cast_items items = Ret s
  <-> Forall2 (fun o n => Py.cast_integral size_t o = Ret n) items s.
Proof.
  revert s. induction items as [| o rest IH]; intros s; cbn.
  - split.
    + intros [= <-]. constructor.
    + intros H. by inversion H.
  - destruct (Py.cast_integral size_t o) as [n | e] eqn:Ho.
    + destruct (Py.cast_items rest) as [ns | e] eqn:Hrest.
      * split.
        -- intros [= <-]. constructor; [exact Ho |]. by apply IH.
        -- intros H. inversion H as [| ? n' ? ns' Hn Hns]; subst.
           rewrite Ho in Hn. injection Hn as <-.
           apply IH in Hns. by injection Hns as <-.
      * split; [discriminate |].
        intros H. inversion H as [| ? n' ? ns' Hn Hns]; subst.
        apply IH in Hns. discriminate Hns.
    + split; [discriminate |].
      intros H. inversion H as [| ? n' ? ns' Hn Hns]; subst.
      rewrite Ho in Hn. discriminate Hn.
Qed.


Lemma make_shape_sequence (items : list Py.object) :
  make_shape (Py.List items) = Py.cast_items items
  ∧ make_shape (Py.Tuple items) = Py.cast_items items.
Proof. split; reflexivity. Qed.

(** X1. Round trip: a shape given as a list (or a tuple) of counts that
    are [size_t] values is parsed to exactly these counts, in order and
    whatever the rank. *)
Theorem make_shape_of_counts (s : shape_type) :
  Forall (fun n => CInt.in_range size_t n = true) s ->
  make_shape (Py.List (Py.Int <$> s)) = Ret s
  ∧ make_shape (Py.Tuple (Py.Int <$> s)) = Ret s.
Proof.
  intros Hs.
  destruct (make_shape_sequence (Py.Int <$> s)) as [-> ->].
  assert (H : Py.cast_items (Py.Int <$> s) = Ret s); [| by split].
  apply cast_items_Ret_iff.
  induction Hs as [| n ns Hn Hns IH]; cbn; constructor; [| exact IH].
  unfold Py.cast_integral. cbn. by rewrite Hn.
Qed.

Lemma make_shape_of_counts_witness :
  make_shape (Py.List [Py.Int 2; Py.Int 0; Py.Int 7]) = Ret [2; 0; 7]
  ∧ make_shape (Py.Tuple [Py.Int 2; Py.Int 0; Py.Int 7]) = Ret [2; 0; 7].
Proof.
  apply (make_shape_of_counts [2; 0; 7]).
  repeat constructor.
Defined.



(** ** The constructors, on all inputs *)

Lemma init_array_plex_with_value_cases
    (shape_in value : Py.object) (datatype : string) (h : heap) :
  init_array_plex_with_value shape_in value datatype h =
    match make_shape shape_in with
    | Throw e => (Throw e, h)
    | Ret s =>
        match DataType.from_string datatype with
        | None => (Throw (runtime_error "Unsupported datatype"), h)
        | Some D =>
            match fill_value D value with
            | Ret v =>
                let b := fresh (dom h) in
                (Ret {| data_type := D;
                        instance_ptr :=
                          {| value_type := D; shape := s; buffer := b |} |},
                 <[b := replicate (nelem s) v]> h)
            | Throw e => (Throw e, h)
            end
        end
    end.
Proof.
  destruct (make_shape shape_in) as [s | e] eqn:Hs.
  - destruct (DataType.from_string datatype) as [D |] eqn:HD.
    + destruct (from_string_supported _ _ HD) as [Hsup <-].
      by apply init_array_plex_with_value_eq.
    + unfold init_array_plex_with_value, mbind, M_bind, lift. rewrite Hs.
      unfold SimpleArrayPlex_new. by rewrite HD.
  - unfold init_array_plex_with_value, mbind, M_bind, lift. by rewrite Hs.
Qed.

Lemma init_array_plex_cases
    (shape_in : Py.object) (datatype : string) (h : heap) :
  init_array_plex shape_in datatype h =
    match make_shape shape_in with
    | Throw e => (Throw e, h)
    | Ret s =>
        match DataType.from_string datatype with
        | None => (Throw (runtime_error "Unsupported datatype"), h)
        | Some D =>
            let b := fresh (dom h) in
            (Ret {| data_type := D;
                    instance_ptr :=
                      {| value_type := D; shape := s; buffer := b |} |},
             <[b := replicate (nelem s) Indeterminate]> h)
        end
    end.
Proof.
  unfold init_array_plex, mbind, M_bind, lift.
  destruct (make_shape shape_in) as [s | e]; [| reflexivity].
  unfold SimpleArrayPlex_new.
  destruct (DataType.from_string datatype); reflexivity.
Qed.

Lemma get_typed_array_Throw
    (plex : SimpleArrayPlex) (h h' : heap) (e : exception) :
  get_typed_array plex h = (Throw e, h') ->
  data_type plex = DataType.Undefined ∧ h' = h.
Proof.
  destruct plex as [D a]. unfold get_typed_array. cbn.
  destruct D; cbn; try discriminate. by intros [= _ <-].
Qed.

(** What a successful value-fill construction tells, for any input. *)
Lemma init_array_plex_with_value_Ret
    (shape_in value : Py.object) (datatype : string)
    (h h' : heap) (plex : SimpleArrayPlex) :
  init_array_plex_with_value shape_in value datatype h = (Ret plex, h') ->
  exists D s v,
    make_shape shape_in = Ret s
    ∧ DataType.from_string datatype = Some D
    ∧ fill_value D value = Ret v
    ∧ plex = {| data_type := D;
                 instance_ptr :=
                   {| value_type := D; shape := s; buffer := fresh (dom h) |} |}
    ∧ h' = <[fresh (dom h) := replicate (nelem s) v]> h.
Proof.
  rewrite init_array_plex_with_value_cases.
  destruct (make_shape shape_in) as [s | e] eqn:Hs; [| discriminate].
  destruct (DataType.from_string datatype) as [D |] eqn:HD; [| discriminate].
  destruct (fill_value D value) as [v | e] eqn:Hv; [| discriminate].
  cbn zeta. intros [= <- <-]. exists D, s, v. split_and!; done.
Qed.

(** X4. Exception safety: when either constructor or [typed] throws,
    whatever the arguments and whichever the exception, the store is the
    one the call started from: nothing was allocated for good and no
    existing array was written. *)
Theorem failure_leaves_store_unchanged
    (shape_in value : Py.object) (datatype : string) (plex : SimpleArrayPlex)
    (h h' : heap) (e : exception) :
  (init_array_plex shape_in datatype h = (Throw e, h') -> h' = h)
  ∧ (init_array_plex_with_value shape_in value datatype h = (Throw e, h') -> h' = h)
  ∧ (get_typed_array plex h = (Throw e, h') -> h' = h).
Proof.
  split_and!.
  - rewrite init_array_plex_cases.
    destruct (make_shape shape_in); [| by intros [= _ <-]].
    destruct (DataType.from_string datatype); [discriminate | by intros [= _ <-]].
  - rewrite init_array_plex_with_value_cases.
    destruct (make_shape shape_in); [| by intros [= _ <-]].
    destruct (DataType.from_string datatype) as [D |]; [| by intros [= _ <-]].
    destruct (fill_value D value); [discriminate | by intros [= _ <-]].
  - intros H. by apply get_typed_array_Throw in H as [_ ->].
Qed.

Lemma failure_leaves_store_unchanged_witness :
  ({[ 1%positive := [Integer 5] ]} : heap) = {[ 1%positive := [Integer 5] ]}.
Proof.
  apply (proj1 (proj2 (failure_leaves_store_unchanged
                         (Py.Int 4) (Py.Int 70000) "uint16"
                         {| data_type := DataType.Bool;
                            instance_ptr := {| value_type := DataType.Bool;
                                               shape := [];
                                               buffer := 1%positive |} |}
                         {[ 1%positive := [Integer 5] ]}
                         {[ 1%positive := [Integer 5] ]} cast_error))).
  vm_compute. reflexivity.
Defined.

(** X5. Order of the errors: an invalid shape is reported (as the cast
    error) whatever the dtype name and the value are; with a valid shape,
    an unknown dtype name is reported as "Unsupported datatype" whatever
    the value is, also when the value would be refused by every dtype. *)
Theorem errors_in_argument_order
    (shape_in value : Py.object) (datatype : string) (h : heap) (s : shape_type) :
  (make_shape shape_in = Throw cast_error ->
   init_array_plex_with_value shape_in value datatype h = (Throw cast_error, h)
   ∧ init_array_plex shape_in datatype h = (Throw cast_error, h))
  ∧ (make_shape shape_in = Ret s -> DataType.from_string datatype = None ->
     init_array_plex_with_value shape_in value datatype h
     = (Throw (runtime_error "Unsupported datatype"), h)
     ∧ init_array_plex shape_in datatype h
       = (Throw (runtime_error "Unsupported datatype"), h)).
Proof.
  rewrite init_array_plex_with_value_cases, init_array_plex_cases.
  split.
  - by intros ->.
  - by intros -> ->.
Qed.

Lemma errors_in_argument_order_witness :
  init_array_plex_with_value (Py.Float 2.5) Py.None_ "complex128" ∅
  = (Throw cast_error, ∅)
  ∧ init_array_plex_with_value (Py.Int 2) Py.None_ "complex128" ∅
    = (Throw (runtime_error "Unsupported datatype"), ∅).
Proof.
  split.
  - apply (proj1 (errors_in_argument_order (Py.Float 2.5) Py.None_ "complex128" ∅ [])).
    reflexivity.
  - apply (proj2 (errors_in_argument_order (Py.Int 2) Py.None_ "complex128" ∅ [2]));
      reflexivity.
Defined.

(** X6. With a valid shape and a supported dtype, the value-fill
    constructor throws the "Data type mismatch" error exactly when the
    value fails the instance check of the family of the dtype: [bool] for
    Bool, [int] (which a [bool] passes) for the integer dtypes, [float]
    for the float dtypes.  [None], strings and sequences are refused by
    every dtype. *)
Theorem mismatch_iff_instance_check_fails
    (shape_in value : Py.object) (s : shape_type) (D : DataType.t) (h : heap) :
  make_shape shape_in = Ret s ->
  DataType.supported D = true ->
  ((exists e h',
       init_array_plex_with_value shape_in value (DataType.name D) h = (Throw e, h')
       ∧ is_TypeMismatchError e = true)
   <-> passes_check value D = false)
  ∧ (Py.isinstance_bool_ value = false -> Py.isinstance_int_ value = false ->
     Py.isinstance_float_ value = false -> passes_check value D = false).
Proof.
  intros Hs HD.
  rewrite (init_array_plex_with_value_eq _ _ _ _ _ Hs HD).
  split; [split |].
  - intros (e & h' & Hr & He).
    apply (fill_value_mismatch_iff value D HD). exists e. split; [| exact He].
    destruct (fill_value D value); [discriminate Hr | by injection Hr as ->].
  - intros Hc. apply (fill_value_mismatch_iff value D HD) in Hc as (e & -> & He).
    by exists e, h.
  - intros Hb Hi Hf. unfold passes_check.
    by destruct (DataType.family_of D) as [[] |].
Qed.

Lemma mismatch_iff_instance_check_fails_witness :
  exists e h',
    init_array_plex_with_value (Py.Int 2) (Py.Str "1") (DataType.name DataType.Int64) ∅
    = (Throw e, h')
    ∧ is_TypeMismatchError e = true.
Proof.
  apply (proj1 (mismatch_iff_instance_check_fails
                  (Py.Int 2) (Py.Str "1") [2] DataType.Int64 ∅ eq_refl eq_refl)).
  reflexivity.
Defined.

(** ** The integer branches *)

Lemma convert_range (T : CInt.type) (z : Z) :
  CInt.in_range T (CInt.convert T z) = true.
Proof.
  unfold CInt.in_range, CInt.convert, CInt.min_value, CInt.max_value.
  apply andb_true_iff. rewrite !Z.leb_le.
  destruct T; cbn;
    repeat match goal with
           | |- context [?a <=? ?b] => destruct (Z.leb_spec a b)
           end;
    Z.div_mod_to_equations; lia.
Qed.

(** X7. The uint32 and uint64 branches cast the value to [int32_t] and
    [int64_t]. So a uint32 (uint64) array accepts exactly the integers of
    the signed 32-bit (64-bit) range and stores the value modulo 2^32
    (2^64): every value outside the signed range, the upper half of the
    unsigned range included, is refused with the cast error, and a
    negative value [V] of the signed range is stored as [V + 2^w]. *)
Theorem unsigned_wide_branches_cast_signed
    (shape_in : Py.object) (s : shape_type) (D : DataType.t) (w V : Z) (h : heap) :
  make_shape shape_in = Ret s ->
  (D = DataType.Uint32 ∧ w = 32) ∨ (D = DataType.Uint64 ∧ w = 64) ->
  (- 2 ^ (w - 1) <= V < 2 ^ (w - 1) ->
   yields_filled
     (init_array_plex_with_value shape_in (Py.Int V) (DataType.name D) h)
     h D s (Integer (V mod 2 ^ w))
   ∧ (V < 0 -> V mod 2 ^ w = V + 2 ^ w))
  ∧ (V < - 2 ^ (w - 1) ∨ 2 ^ (w - 1) <= V ->
     init_array_plex_with_value shape_in (Py.Int V) (DataType.name D) h
     = (Throw cast_error, h)).
Proof.
  intros Hs HD.
  assert (Hsup : DataType.supported D = true) by (destruct HD as [[-> _] | [-> _]]; done).
  rewrite (init_array_plex_with_value_eq _ _ _ _ _ Hs Hsup).
  assert (Hv : fill_value D (Py.Int V) =
               if (- 2 ^ (w - 1) <=? V) && (V <=? 2 ^ (w - 1) - 1)
               then Ret (Integer (V mod 2 ^ w)) else Throw cast_error).
  { destruct HD as [[-> ->] | [-> ->]]; unfold fill_value; cbn;
      unfold Py.cast_integral, CInt.in_range; cbn;
      match goal with |- context [if ?c then _ else _] => destruct c end;
      reflexivity. }
  rewrite Hv. split.
  - intros [Hlo Hhi].
    assert (Hin : (- 2 ^ (w - 1) <=? V) && (V <=? 2 ^ (w - 1) - 1) = true)
      by (apply andb_true_iff; split; apply Z.leb_le; lia).
    rewrite Hin. split.
    + eexists _, _. split; [reflexivity |]. cbn.
      split_and!; try reflexivity. apply fresh_unallocated.
    + intros Hneg. destruct HD as [[_ ->] | [_ ->]]; cbn in *;
        Z.div_mod_to_equations; lia.
  - intros Hout'.
    assert (Hout : (- 2 ^ (w - 1) <=? V) && (V <=? 2 ^ (w - 1) - 1) = false)
      by (apply andb_false_iff; rewrite !Z.leb_gt; lia).
    by rewrite Hout.
Qed.

Lemma unsigned_wide_branches_cast_signed_witness :
  yields_filled
    (init_array_plex_with_value (Py.Int 2) (Py.Int (-2)) (DataType.name DataType.Uint64) ∅)
    ∅ DataType.Uint64 [2] (Integer ((-2) mod 2 ^ 64))
  ∧ init_array_plex_with_value (Py.Int 2) (Py.Int 4000000000)
      (DataType.name DataType.Uint32) ∅
    = (Throw cast_error, ∅).
Proof.
  split.
  - apply (unsigned_wide_branches_cast_signed
             (Py.Int 2) [2] DataType.Uint64 64 (-2) ∅ eq_refl).
    + right. split; reflexivity.
    + lia.
  - apply (unsigned_wide_branches_cast_signed
             (Py.Int 2) [2] DataType.Uint32 32 4000000000 ∅ eq_refl).
    + left. split; reflexivity.
    + lia.
Defined.

(** ** What a constructed plex holds *)

Lemma fill_value_well_typed (D : DataType.t) (value : Py.object) (v : scalar) :
  fill_value D value = Ret v -> well_typed D v = true.
Proof.
  unfold fill_value, well_typed.
  destruct D; cbn -[CInt.convert CInt.in_range]; try discriminate;
    repeat match goal with
           | |- context [if ?c then _ else _] => destruct c; try discriminate
           | |- context [match ?c with Ret _ => _ | Throw _ => _ end] =>
               destruct c; try discriminate
           end;
    intros [= <-]; try reflexivity; apply convert_range.
Qed.

(** X8. Whatever the arguments, when the value-fill constructor returns
    a plex its buffer holds one and the same element [nelem shape] times,
    and this element is of the type the tag names: a boolean for Bool, an
    integer within the range of the element type for the integer dtypes
    (also on the uint32 and uint64 branches), a real for the float
    dtypes.  No element is left uninitialised. *)
Theorem value_fill_contents_well_typed
    (shape_in value : Py.object) (datatype : string)
    (h h' : heap) (plex : SimpleArrayPlex) :
  init_array_plex_with_value shape_in value datatype h = (Ret plex, h') ->
  exists v,
    h' !! buffer (instance_ptr plex)
    = Some (replicate (nelem (shape (instance_ptr plex))) v)
    ∧ well_typed (data_type plex) v = true
    ∧ v ≠ Indeterminate.
Proof.
  intros H.
  apply init_array_plex_with_value_Ret in H
    as (D & s & v & Hs & HD & Hv & -> & ->).
  apply fill_value_well_typed in Hv.
  exists v. cbn. split_and!.
  - apply lookup_insert_eq.
  - exact Hv.
  - intros ->. unfold well_typed in Hv. by destruct (DataType.family_of D) as [[] |].
Qed.

Lemma value_fill_contents_well_typed_witness :
  exists v,
    <[1%positive := replicate 2 (Integer 4294967289)]> (∅ : heap) !! 1%positive
    = Some (replicate (nelem [2]) v)
    ∧ well_typed DataType.Uint32 v = true
    ∧ v ≠ Indeterminate.
Proof.
  apply (value_fill_contents_well_typed (Py.Int 2) (Py.Int (-7)) "uint32" ∅
           (<[1%positive := replicate 2 (Integer 4294967289)]> ∅)
           {| data_type := DataType.Uint32;
              instance_ptr := {| value_type := DataType.Uint32; shape := [2];
                                 buffer := 1%positive |} |}).
  vm_compute. reflexivity.
Defined.

(** X9. A successful construction, with or without a fill value, adds
    exactly one buffer to the store, at an address that was not in use,
    and leaves every buffer that existed as it was. *)
Theorem construction_only_adds_one_buffer
    (shape_in value : Py.object) (datatype : string)
    (h h' : heap) (plex : SimpleArrayPlex) :
  init_array_plex shape_in datatype h = (Ret plex, h')
  ∨ init_array_plex_with_value shape_in value datatype h = (Ret plex, h') ->
  h !! buffer (instance_ptr plex) = None
  ∧ dom h' = {[ buffer (instance_ptr plex) ]} ∪ dom h
  ∧ (forall b elems, h !! b = Some elems -> h' !! b = Some elems).
Proof.
  intros H.
  assert (Hshape : exists x, buffer (instance_ptr plex) = fresh (dom h)
                            ∧ h' = <[fresh (dom h) := x]> h).
  { destruct H as [H | H].
    - rewrite init_array_plex_cases in H.
      destruct (make_shape shape_in); [| discriminate].
      destruct (DataType.from_string datatype); [| discriminate].
      cbn zeta in H. injection H as <- <-. by eexists.
    - apply init_array_plex_with_value_Ret in H
        as (D & s & v & _ & _ & _ & -> & ->). by eexists. }
  destruct Hshape as (x & -> & ->).
  pose proof (fresh_unallocated h) as Hb.
  split_and!.
  - exact Hb.
  - apply dom_insert_L.
  - intros b elems Hl. rewrite lookup_insert_ne; [exact Hl | congruence].
Qed.

Lemma construction_only_adds_one_buffer_witness :
  ({[ 1%positive := [Real 1.5] ]} : heap) !! 2%positive = None
  ∧ dom (<[2%positive := replicate 3 Indeterminate]>
           ({[ 1%positive := [Real 1.5] ]} : heap))
    = {[ 2%positive ]} ∪ dom ({[ 1%positive := [Real 1.5] ]} : heap)
  ∧ <[2%positive := replicate 3 Indeterminate]>
      ({[ 1%positive := [Real 1.5] ]} : heap) !! 1%positive = Some [Real 1.5].
Proof.
  destruct (construction_only_adds_one_buffer (Py.Int 3) Py.None_ "float32"
              {[ 1%positive := [Real 1.5] ]}
              (<[2%positive := replicate 3 Indeterminate]>
                 {[ 1%positive := [Real 1.5] ]})
              {| data_type := DataType.Float32;
                 instance_ptr := {| value_type := DataType.Float32; shape := [3];
                                    buffer := 2%positive |} |})
    as (Hnew & Hdom & Hold).
  - left. vm_compute. reflexivity.
  - split_and!; [exact Hnew | exact Hdom |].
    apply Hold. reflexivity.
Defined.

(** ** Constructors and [typed] together *)

(** X10. The tag of a plex returned by either constructor is one of the
    eleven supported dtypes, the one the dtype name denotes, and it is
    the element type of the array the plex owns; the shape is the parsed
    one.  Hence [typed] never throws on a constructed plex, from any
    store: its "Unsupported datatype" branch is out of reach. *)
Theorem constructed_plex_is_consistent
    (shape_in value : Py.object) (datatype : string)
    (h h' : heap) (plex : SimpleArrayPlex) :
  init_array_plex shape_in datatype h = (Ret plex, h')
  ∨ init_array_plex_with_value shape_in value datatype h = (Ret plex, h') ->
  DataType.supported (data_type plex) = true
  ∧ DataType.name (data_type plex) = datatype
  ∧ value_type (instance_ptr plex) = data_type plex
  ∧ make_shape shape_in = Ret (shape (instance_ptr plex))
  ∧ (forall h2, exists typed h3,
        get_typed_array plex h2 = (Ret typed, h3)
        ∧ value_type typed = data_type plex
        ∧ shape typed = shape (instance_ptr plex)).
Proof.
  intros H.
  assert (Hp : exists D s b,
             DataType.from_string datatype = Some D
             ∧ make_shape shape_in = Ret s
             ∧ plex = {| data_type := D;
                         instance_ptr :=
                           {| value_type := D; shape := s; buffer := b |} |}).
  { destruct H as [H | H].
    - rewrite init_array_plex_cases in H.
      destruct (make_shape shape_in) as [s |]; [| discriminate].
      destruct (DataType.from_string datatype) as [D |]; [| discriminate].
      cbn zeta in H. injection H as <- <-. by eexists D, s, _.
    - apply init_array_plex_with_value_Ret in H
        as (D & s & v & Hs & HD & _ & -> & _). by eexists D, s, _. }
  destruct Hp as (D & s & b & HD & Hs & ->).
  destruct (from_string_supported _ _ HD) as [Hsup Hname]. cbn.
  split_and!; try done.
  intros h2. eexists _, _.
  split; [by apply get_typed_array_eq |]. by split.
Qed.

Lemma constructed_plex_is_consistent_witness :
  exists typed h3,
    get_typed_array
      {| data_type := DataType.Int16;
         instance_ptr := {| value_type := DataType.Int16; shape := [2; 2];
                            buffer := 1%positive |} |} ∅
    = (Ret typed, h3)
    ∧ value_type typed = DataType.Int16
    ∧ shape typed = [2; 2].
Proof.
  destruct (constructed_plex_is_consistent
              (Py.Tuple [Py.Int 2; Py.Int 2]) (Py.Int (-5)) "int16" ∅
              (<[1%positive := replicate 4 (Integer (-5))]> ∅)
              {| data_type := DataType.Int16;
                 instance_ptr := {| value_type := DataType.Int16; shape := [2; 2];
                                    buffer := 1%positive |} |})
    as (_ & _ & _ & _ & Htyped).
  - right. vm_compute. reflexivity.
  - exact (Htyped ∅).
Defined.



(** X12. The arrays [typed] returns are snapshots: a copy taken before
    the plex is filled keeps the old elements, a copy taken after the
    fill holds the new ones, and the two copies and the plex lie in three
    different buffers. *)
Theorem typed_copies_are_snapshots
    (plex : SimpleArrayPlex) (h : heap) (elems : list scalar) (v : scalar) :
  DataType.supported (data_type plex) = true ->
  h !! buffer (instance_ptr plex) = Some elems ->
  exists t1 h1 h2 t2 h3,
    get_typed_array plex h = (Ret t1, h1)
    ∧ fill (instance_ptr plex) v h1 = (Ret tt, h2)
    ∧ get_typed_array plex h2 = (Ret t2, h3)
    ∧ buffer t1 ≠ buffer (instance_ptr plex)
    ∧ buffer t2 ≠ buffer (instance_ptr plex)
    ∧ buffer t1 ≠ buffer t2
    ∧ h3 !! buffer t1 = Some elems
    ∧ h3 !! buffer t2 = Some (replicate (length elems) v)
    ∧ h3 !! buffer (instance_ptr plex) = Some (replicate (length elems) v).
Proof.
  intros Hsup Hb.
  set (b := buffer (instance_ptr plex)) in *.
  pose proof (get_typed_array_eq plex h Hsup) as E1. cbn zeta in E1.
  pose proof (fresh_unallocated h) as Hc1.
  set (c1 := fresh (dom h)) in *.
  fold b in E1. rewrite (lookup_total_alt h b), Hb in E1. cbn in E1.
  set (h1 := <[c1 := elems]> h) in *.
  assert (Hc1b : c1 ≠ b) by congruence.
  set (h2 := alter (fun es => replicate (length es) v) b h1).
  assert (Hb2 : h2 !! b = Some (replicate (length elems) v)).
  { unfold h2, h1. by rewrite lookup_alter_eq, lookup_insert_ne, Hb. }
  assert (Hc12 : h2 !! c1 = Some elems).
  { unfold h2, h1. rewrite lookup_alter_ne by done. apply lookup_insert_eq. }
  pose proof (get_typed_array_eq plex h2 Hsup) as E2. cbn zeta in E2.
  pose proof (fresh_unallocated h2) as Hc2.
  set (c2 := fresh (dom h2)) in *.
  fold b in E2. rewrite (lookup_total_alt h2 b), Hb2 in E2. cbn in E2.
  assert (Hc2b : c2 ≠ b) by congruence.
  assert (Hc21 : c1 ≠ c2) by congruence.
  eexists _, h1, h2, _, _.
  split; [exact E1 |]. split; [reflexivity |]. split; [exact E2 |]. cbn.
  split_and!; try done.
  - by rewrite lookup_insert_ne.
  - apply lookup_insert_eq.
  - by rewrite lookup_insert_ne.
Qed.

Lemma typed_copies_are_snapshots_witness :
  exists t1 h1 h2 t2 h3,
    get_typed_array
      {| data_type := DataType.Int32;
         instance_ptr := {| value_type := DataType.Int32; shape := [2];
                            buffer := 1%positive |} |}
      {[ 1%positive := [Integer 7; Integer 8] ]} = (Ret t1, h1)
    ∧ fill {| value_type := DataType.Int32; shape := [2]; buffer := 1%positive |}
        (Integer 0) h1 = (Ret tt, h2)
    ∧ get_typed_array
        {| data_type := DataType.Int32;
           instance_ptr := {| value_type := DataType.Int32; shape := [2];
                              buffer := 1%positive |} |} h2 = (Ret t2, h3)
    ∧ buffer t1 ≠ 1%positive
    ∧ buffer t2 ≠ 1%positive
    ∧ buffer t1 ≠ buffer t2
    ∧ h3 !! buffer t1 = Some [Integer 7; Integer 8]
    ∧ h3 !! buffer t2 = Some [Integer 0; Integer 0]
    ∧ h3 !! 1%positive = Some [Integer 0; Integer 0].
Proof.
  apply (typed_copies_are_snapshots
           {| data_type := DataType.Int32;
              instance_ptr := {| value_type := DataType.Int32; shape := [2];
                                 buffer := 1%positive |} |}
           {[ 1%positive := [Integer 7; Integer 8] ]}
           [Integer 7; Integer 8] (Integer 0)); reflexivity.
Defined.

(** ** The tables of a mesh *)

Lemma returns_in_bind
    {A B : Type} (m : M A) (k : A -> M B) (h : heap)
    (Q : A -> heap -> Prop) (R : B -> heap -> Prop) :
  returns_in m h Q ->
  (forall a h', Q a h' -> returns_in (k a) h' R) ->
  returns_in (m ≫= k) h R.
Proof.
  intros (a & h' & Hm & HQ) Hk.
  destruct (Hk a h' HQ) as (b & h'' & Hb & HR).
  exists b, h''. split; [| exact HR].
  unfold mbind, M_bind. by rewrite Hm.
Qed.

Lemma returns_in_mret {A : Type} (a : A) (h : heap) (Q : A -> heap -> Prop) :
  Q a h -> returns_in (mret a) h Q.
Proof. intros HQ. by exists a, h. Qed.

Lemma allocated_since_refl (h : heap) : allocated_since h h [].
Proof. split_and!; [done | constructor | constructor]. Qed.

Lemma allocated_since_insert
    (h0 h : heap) (bs : list (positive * list scalar)) (x : list scalar) :
  allocated_since h0 h bs ->
  allocated_since h0 (<[fresh (dom h) := x]> h) ((fresh (dom h), x) :: bs).
Proof.
  intros (Hsub & Hnd & Hall).
  pose proof (fresh_unallocated h) as Hb.
  set (b := fresh (dom h)) in *.
  split_and!.
  - trans h; [exact Hsub | by apply insert_subseteq].
  - cbn. apply NoDup_cons. split; [| exact Hnd].
    intros Hin. apply list_elem_of_fmap in Hin as ([b' x'] & Hbb & Hin).
    cbn in Hbb. subst b'.
    rewrite Forall_forall in Hall. destruct (Hall _ Hin) as [_ Hsome].
    cbn in Hsome. congruence.
  - constructor.
    + cbn. split; [| apply lookup_insert_eq].
      by eapply lookup_weaken_None.
    + eapply Forall_impl; [exact Hall |].
      intros [b' x'] [H0 H1]. cbn in *. split; [exact H0 |].
      rewrite lookup_insert_ne; [exact H1 | congruence].
Qed.

Lemma returns_in_SimpleArray_new
    (T : DataType.t) (s : shape_type) (h0 h : heap)
    (bs : list (positive * list scalar)) :
  allocated_since h0 h bs ->
  returns_in (SimpleArray_new T s) h
    (fun a h' =>
       value_type a = T ∧ shape a = s
       ∧ allocated_since h0 h'
           ((buffer a, replicate (nelem (shape a)) Indeterminate) :: bs)).
Proof.
  intros H. eexists _, _. split; [reflexivity |]. cbn.
  split_and!; try reflexivity. by apply allocated_since_insert.
Qed.

(** X13. For every dimension, counts and store, the constructor of the
    mesh keeps the four counts, sets the three ghost counts to zero, and
    gives every table but [fctpn] the interior count of its own entity
    as leading dimension: [nnode] for the node table, [nface] for the
    five other face tables, [ncell] for the six cell tables; the second
    dimension is the space dimension for coordinates, centres and
    normals, and 4, 2, 8 and 6 for the connectivity rows. *)
Theorem mesh_tables_lead_with_their_count
    (NDIM : Z) (int_type real_type : DataType.t)
    (nnode nface ncell nbound : Z) (h : heap) :
  exists m h',
    StaticMeshBase.construct NDIM int_type real_type nnode nface ncell nbound h
    = (Ret m, h')
    ∧ (StaticMeshBase.nnode m, StaticMeshBase.nface m,
       StaticMeshBase.ncell m, StaticMeshBase.nbound m)
      = (nnode, nface, ncell, nbound)
    ∧ (StaticMeshBase.ngstnode m, StaticMeshBase.ngstface m,
       StaticMeshBase.ngstcell m) = (0, 0, 0)
    ∧ shape (StaticMeshBase.ndcrd m) = [StaticMeshBase.nnode m; NDIM]
    ∧ shape (StaticMeshBase.fccnd m) = [StaticMeshBase.nface m; NDIM]
    ∧ shape (StaticMeshBase.fcnml m) = [StaticMeshBase.nface m; NDIM]
    ∧ shape (StaticMeshBase.fcara m) = [StaticMeshBase.nface m]
    ∧ shape (StaticMeshBase.fcnds m) = [StaticMeshBase.nface m; 4]
    ∧ shape (StaticMeshBase.fccls m) = [StaticMeshBase.nface m; 2]
    ∧ shape (StaticMeshBase.clcnd m) = [StaticMeshBase.ncell m; NDIM]
    ∧ shape (StaticMeshBase.clvol m) = [StaticMeshBase.ncell m]
    ∧ shape (StaticMeshBase.cltpn m) = [StaticMeshBase.ncell m]
    ∧ shape (StaticMeshBase.clgrp m) = [StaticMeshBase.ncell m]
    ∧ shape (StaticMeshBase.clnds m) = [StaticMeshBase.ncell m; 8]
    ∧ shape (StaticMeshBase.clfcs m) = [StaticMeshBase.ncell m; 6].
Proof.
  destruct (construct_shapes NDIM int_type real_type nnode nface ncell nbound h)
    as (m & h' & E & Hnn & Hnf & Hnc & Hnb & Hgn & Hgf & Hgc & Hr).
  exists m, h'. split; [exact E |].
  rewrite Hnn, Hnf, Hnc, Hnb, Hgn, Hgf, Hgc.
  destruct_and!. split_and!; done.
Qed.

(** X14. The six geometry tables of a constructed mesh have the real
    element type of the space and the seven meta and connectivity tables
    its integer element type. *)
Theorem mesh_tables_element_types
    (NDIM : Z) (int_type real_type : DataType.t)
    (nnode nface ncell nbound : Z) (h : heap) :
  exists m h',
    StaticMeshBase.construct NDIM int_type real_type nnode nface ncell nbound h
    = (Ret m, h')
    ∧ Forall (fun a => value_type a = real_type) (geometry_tables m)
    ∧ Forall (fun a => value_type a = int_type) (integer_tables m).
Proof.
  assert (H : returns
                (StaticMeshBase.construct NDIM int_type real_type
                   nnode nface ncell nbound) h
                (fun m =>
                   Forall (fun a => value_type a = real_type) (geometry_tables m)
                   ∧ Forall (fun a => value_type a = int_type) (integer_tables m))).
  { unfold StaticMeshBase.construct.
    repeat (eapply returns_bind;
            [apply returns_SimpleArray_new | intros ? ? [? _]]).
    apply returns_mret. cbn. split; repeat constructor; assumption. }
  destruct H as (m & h' & E & Hg & Hi). by exists m, h'.
Qed.

(** X15. The thirteen tables of a constructed mesh lie in thirteen
    different buffers, none of which existed before; each holds as many
    elements as its shape asks for, all uninitialised; and every buffer
    that existed before the construction is still there, unchanged. *)
Theorem mesh_tables_do_not_alias
    (NDIM : Z) (int_type real_type : DataType.t)
    (nnode nface ncell nbound : Z) (h : heap) :
  exists m h',
    StaticMeshBase.construct NDIM int_type real_type nnode nface ncell nbound h
    = (Ret m, h')
    ∧ NoDup (buffer <$> tables m)
    ∧ Forall (fun a =>
                h !! buffer a = None
                ∧ h' !! buffer a
                  = Some (replicate (nelem (shape a)) Indeterminate))
        (tables m)
    ∧ (forall b elems, h !! b = Some elems -> h' !! b = Some elems).
Proof.
  assert (H : returns_in
                (StaticMeshBase.construct NDIM int_type real_type
                   nnode nface ncell nbound) h
                (fun m h' =>
                   allocated_since h h'
                     (reverse ((fun a => (buffer a,
                                          replicate (nelem (shape a)) Indeterminate))
                               <$> tables m)))).
  { unfold StaticMeshBase.construct.
    pose proof (allocated_since_refl h) as H0.
    repeat (eapply returns_in_bind;
            [apply returns_in_SimpleArray_new; eassumption
            | intros ? ? (_ & _ & ?)]).
    apply returns_in_mret. cbn. assumption. }
  destruct H as (m & h' & E & Hsub & Hnd & Hall).
  exists m, h'. split; [exact E |]. split_and!.
  - rewrite reverse_Permutation, <- list_fmap_compose in Hnd. exact Hnd.
  - rewrite Forall_reverse, Forall_fmap in Hall. exact Hall.
  - intros b elems Hb. by eapply lookup_weaken.
Qed.

(** ** The cell type catalogue *)

Lemma name_cases (c : CellType.t) :
  (CellType.id c = 1 ∧ CellType.name c = "point")
  ∨ (CellType.id c = 2 ∧ CellType.name c = "line")
  ∨ (CellType.id c = 3 ∧ CellType.name c = "quadrilateral")
  ∨ (CellType.id c = 4 ∧ CellType.name c = "triangle")
  ∨ (CellType.id c = 5 ∧ CellType.name c = "hexahedron")
  ∨ (CellType.id c = 6 ∧ CellType.name c = "tetrahedron")
  ∨ (CellType.id c = 7 ∧ CellType.name c = "prism")
  ∨ (CellType.id c = 8 ∧ CellType.name c = "pyramid")
  ∨ ((CellType.id c < 1 ∨ 8 < CellType.id c) ∧ CellType.name c = "noncelltype").
Proof.
  unfold CellType.name.
  unfold CellTypeBase.POINT, CellTypeBase.LINE, CellTypeBase.QUADRILATERAL,
    CellTypeBase.TRIANGLE, CellTypeBase.HEXAHEDRON, CellTypeBase.TETRAHEDRON,
    CellTypeBase.PRISM, CellTypeBase.PYRAMID.
  repeat match goal with
         | |- context [?a =? ?b] => destruct (Z.eqb_spec a b)
         end;
    repeat first [left; split; [assumption | reflexivity] | right];
    split; [lia | reflexivity].
Qed.

(** X16. [name] tells the declared cell types apart: it answers
    "noncelltype" exactly for the ids outside 1..NTYPE (the sentinel 0
    included), and two cell types with the same name, one of them with an
    id in 1..NTYPE, have the same id. *)
Theorem name_identifies_cell_type (c1 c2 : CellType.t) :
  (CellType.name c1 = "noncelltype"
   <-> ¬ (1 <= CellType.id c1 <= CellTypeBase.NTYPE))
  ∧ (1 <= CellType.id c1 <= CellTypeBase.NTYPE ->
     CellType.name c1 = CellType.name c2 ->
     CellType.id c1 = CellType.id c2).
Proof.
  unfold CellTypeBase.NTYPE.
  destruct (name_cases c1) as [H1 | [H1 | [H1 | [H1 | [H1 | [H1 | [H1 | [H1 | H1]]]]]]]];
    destruct H1 as [Hid1 Hn1]; rewrite Hn1;
    (split; [split; [intros; (discriminate || lia) | intros; (lia || reflexivity)] |]);
    intros Hr Hn;
    try lia;
    destruct (name_cases c2) as [H2 | [H2 | [H2 | [H2 | [H2 | [H2 | [H2 | [H2 | H2]]]]]]]];
    destruct H2 as [Hid2 Hn2]; rewrite Hn2 in Hn;
    (discriminate Hn || lia).
Qed.

Lemma name_identifies_cell_type_witness :
  CellType.id (CellType.make 3 6 4 6 4) = CellType.id TetrahedronCellType.
Proof.
  apply (proj2 (name_identifies_cell_type
                  (CellType.make 3 6 4 6 4) TetrahedronCellType)).
  - unfold CellTypeBase.NTYPE. cbn. lia.
  - reflexivity.
Defined.

(** X17. Every declared cell type fits the fixed-width rows of the mesh
    tables and its [uint8_t] members: its id is one of 1..NTYPE, it has
    at least one and at most CLNND_MAX (8) nodes, at most CLNFC_MAX (6)
    faces, and, below dimension 3, at most FCNND_MAX (4) nodes; no two
    declared types share an id. *)
Theorem declared_cell_types_fit_rows (c c' : CellType.t) :
  c ∈ cell_types ->
  1 <= CellType.id c <= CellTypeBase.NTYPE
  ∧ 1 <= CellType.nnode c <= StaticMeshBase.CLMND
  ∧ 0 <= CellType.nface c <= StaticMeshBase.CLMFC
  ∧ (CellType.ndim c < 3 -> CellType.nnode c <= StaticMeshBase.FCMND)
  ∧ 0 <= CellType.nedge c < 256 ∧ 0 <= CellType.nsurface c < 256
  ∧ (c' ∈ cell_types -> CellType.id c = CellType.id c' -> c = c').
Proof.
  intros Hc. apply list_elem_of_In in Hc. unfold cell_types in Hc. cbn in Hc.
  unfold StaticMeshBase.CLMND, StaticMeshBase.CLMFC, StaticMeshBase.FCMND,
    CellTypeBase.NTYPE, CellTypeBase.CLNND_MAX, CellTypeBase.CLNFC_MAX,
    CellTypeBase.FCNND_MAX.
  repeat (destruct Hc as [<- | Hc]; [
    cbn; split_and!; try lia;
    intros Hc' Hid; apply list_elem_of_In in Hc'; cbn in Hc';
    repeat (destruct Hc' as [<- | Hc']; [(reflexivity || discriminate Hid) |]);
    destruct Hc' |]).
  destruct Hc.
Qed.

Lemma declared_cell_types_fit_rows_witness :
  1 <= CellType.nnode HexahedronCellType <= StaticMeshBase.CLMND
  ∧ 0 <= CellType.nface HexahedronCellType <= StaticMeshBase.CLMFC.
Proof.
  assert (H : HexahedronCellType ∈ cell_types)
    by (apply list_elem_of_In; do 4 right; left; reflexivity).
  destruct (declared_cell_types_fit_rows HexahedronCellType PointCellType H)
    as (_ & Hn & Hf & _).
  split; assumption.
Defined.

(** X18. The counts of the declared cell types are those of polygons and
    polyhedra: a 3-D type satisfies Euler's formula
    [nnode - nedge + nsurface = 2], a 2-D type has as many edges as nodes
    and no surface, and the point and the line have neither edges nor
    surfaces. *)
Theorem declared_cell_types_are_polytopes (c : CellType.t) :
  c ∈ cell_types ->
  (CellType.ndim c = 3 ->
   CellType.nnode c - CellType.nedge c + CellType.nsurface c = 2)
  ∧ (CellType.ndim c = 2 ->
     CellType.nedge c = CellType.nnode c ∧ CellType.nsurface c = 0)
  ∧ (CellType.ndim c < 2 ->
     CellType.nedge c = 0 ∧ CellType.nsurface c = 0)
  ∧ 0 <= CellType.ndim c <= 3.
Proof.
  intros Hc. apply list_elem_of_In in Hc. unfold cell_types in Hc. cbn in Hc.
  repeat (destruct Hc as [<- | Hc]; [cbn; split_and!; intros; lia |]).
  destruct Hc.
Qed.

Lemma declared_cell_types_are_polytopes_witness :
  CellType.nnode PrismCellType - CellType.nedge PrismCellType
  + CellType.nsurface PrismCellType = 2.
Proof.
  assert (H : PrismCellType ∈ cell_types)
    by (apply list_elem_of_In; do 6 right; left; reflexivity).
  apply (proj1 (declared_cell_types_are_polytopes PrismCellType H)).
  reflexivity.
Defined.
